(** * Night.app: the [accept_visit] stored procedure and the dashboard screen

    A shallow embedding of

    - the PL/pgSQL function [accept_visit(p_code text, p_activity_name text)]
      (the migration that recreates it without QR code deactivation), and
    - the data-loading logic of [DashboardScreen] in [app/(tabs)/admin.tsx].

    The procedure is embedded as a state-and-exception computation over the
    four tables it touches and the server log; the screen as state passing
    over its five [useState] cells, with the values a closure captured at
    its render passed explicitly. *)

From Stdlib Require Import ZArith List.
From stdpp Require Import base strings gmap.
Import ListNotations.

Local Open Scope string_scope.
Local Open Scope list_scope.
Local Open Scope Z_scope.

(* ===================================================================== *)
(** ** Values *)
(* ===================================================================== *)

(** [uuid] values in their canonical text form. *)
Definition uuid := string.

(** [timestamptz] values, as microseconds since the epoch. *)
Definition timestamptz := Z.

(** Scalar JSON values. The four values [accept_visit] passes to
    [jsonb_build_object] are a [text], a [uuid] and two columns of the
    activity row, each of which becomes a JSON string. *)
Inductive json : Type :=
  | JNull
  | JNumber (n : Z)
  | JString (s : string).

(** A [jsonb] object: a finite map from keys to values. *)
Abbreviation jsonb := (gmap string json).

(** [jsonb_build_object(k1, v1, k2, v2, ...)]: the arguments are taken in
    order, and a key given twice keeps its last value. *)
Definition jsonb_build_object (args : list (string * json)) : jsonb :=
  fold_left (fun (o : jsonb) (kv : string * json) => <[kv.1 := kv.2]> o)
            args ∅.

(* ===================================================================== *)
(** ** Tables *)
(* ===================================================================== *)

Module Activity.
(** [activities%ROWTYPE]: the columns the procedure reads. The table is
    declared outside the source; [id] is taken to be a [uuid] and [points]
    an integer. *)
Record row : Type := {
  id : uuid;
  name : string;
  points : Z;
  is_active : bool
}.
End Activity.

Module QRCode.
(** A row of [qr_codes]: the columns the procedure reads. [user_id] is
    assigned to a [uuid] variable and [expires_at] is compared with
    [now()]. *)
Record row : Type := {
  code : string;
  user_id : uuid;
  is_active : bool;
  expires_at : timestamptz
}.
End QRCode.

Module Visit.
(** Modelled from the spec: the declaration of [visits] is not part of the
    source. A Visit is identified by a generated identifier and has an
    owning user reference and an implicit creation timestamp; the
    procedure supplies [user_id] and reads back [id]. *)
Record row : Type := {
  id : uuid;
  user_id : uuid;
  created_at : timestamptz
}.
End Visit.

Module PointsTransaction.
(** Modelled from the spec: a PointsTransaction, owned by the ledger
    collaborator, carries the user, the amount, the transaction kind tag,
    the note and the metadata payload it was created with. *)
Record row : Type := {
  user_id : uuid;
  amount : Z;
  kind : string;
  note : string;
  metadata : jsonb
}.
End PointsTransaction.

Record Database : Type := {
  activities : list Activity.row;
  qr_codes : list QRCode.row;
  visits : list Visit.row;
  points_transactions : list PointsTransaction.row
}.

(** The server state a call runs against: the transactional tables and the
    server log, which is not transactional. *)
Record State : Type := {
  database : Database;
  server_log : list string
}.

(** Modelled from the spec: [is_admin()] and the column defaults of
    [visits] are not part of the source. The identity service answers
    [is_admin()] with a boolean tied to the calling principal's session.
    A call gets from its session that answer, the value of [now()] (one
    value for the whole transaction), and the identifier generated for
    the Visit row the call inserts. *)
Record Session : Type := {
  is_admin : bool;
  now : timestamptz;
  gen_random_uuid : uuid
}.

(* ===================================================================== *)
(** ** Errors and the PL/pgSQL computation *)
(* ===================================================================== *)

Record exception : Type := {
  sqlstate : string;
  message : string
}.

(** [RAISE EXCEPTION 'msg'] raises condition [raise_exception], P0001. *)
Definition raise_exception_error (msg : string) : exception :=
  {| sqlstate := "P0001"; message := msg |}.

(** The three errors the procedure raises itself, under the names the
    specification gives them. *)
Definition Unauthorized : exception :=
  raise_exception_error "Unauthorized: Admin access required".
Definition InvalidActivity : exception :=
  raise_exception_error "Invalid activity type".
Definition InvalidOrExpiredCode : exception :=
  raise_exception_error "Invalid or expired QR code".

(** The two conditions [WHEN OTHERS] does not match. *)
Definition query_canceled : string := "57014".
Definition assert_failure : string := "P0004".

(** [WHEN OTHERS]: matches every error except [query_canceled] and
    [assert_failure]. *)
Definition when_others (e : exception) : bool :=
  negb (String.eqb (sqlstate e) query_canceled)
  && negb (String.eqb (sqlstate e) assert_failure).

(** A computation either completes with a value, or raises; in both cases
    it hands on the state it reached. The state of a raise is the one in
    which the error occurred, before any rollback. *)
Inductive outcome (A : Type) : Type :=
  | Ok (a : A) (s : State)
  | Raised (e : exception) (s : State).
Arguments Ok {A} a s.
Arguments Raised {A} e s.

Definition plpgsql (A : Type) : Type := State -> outcome A.

Definition ret {A} (a : A) : plpgsql A := fun s => Ok a s.

Definition bind {A B} (m : plpgsql A) (k : A -> plpgsql B) : plpgsql B :=
  fun s => match m s with
           | Ok a s' => k a s'
           | Raised e s' => Raised e s'
           end.

Notation "x <- m ;; k" := (bind m (fun x => k))
  (at level 100, m at next level, right associativity).
Notation "m ;;; k" := (bind m (fun _ => k))
  (at level 100, right associativity).

(** [RAISE;] and [RAISE EXCEPTION]. *)
Definition raise {A} (e : exception) : plpgsql A := fun s => Raised e s.
Definition raise_exception {A} (msg : string) : plpgsql A :=
  raise (raise_exception_error msg).

(** [RAISE LOG]: one line more in the server log. *)
Definition raise_log (line : string) : plpgsql unit :=
  fun s => Ok tt {| database := database s;
                    server_log := server_log s ++ [line] |}.

(** Undoing the writes made since [saved]: the tables return to what they
    were, the server log keeps what was written. *)
Definition rollback (saved current : State) : State :=
  {| database := database saved; server_log := server_log current |}.

(** [BEGIN body EXCEPTION WHEN cond THEN handler END]. The block is a
    subtransaction: when an error leaves [body], the writes of [body] are
    rolled back first; then [handler] runs if [cond] matches the error,
    and otherwise the error is thrown on. *)
Definition begin_exception {A} (body : plpgsql A)
    (cond : exception -> bool) (handler : exception -> plpgsql A)
  : plpgsql A :=
  fun s => match body s with
           | Ok a s' => Ok a s'
           | Raised e s' =>
               let restored := rollback s s' in
               if cond e then handler e restored else Raised e restored
           end.

(** One call as its own transaction (the client's remote procedure call):
    committed when the function returns, aborted when it raises, which
    undoes every write of the call. *)
Definition transaction {A} (f : plpgsql A) : plpgsql A :=
  fun s => match f s with
           | Ok a s' => Ok a s'
           | Raised e s' => Raised e (rollback s s')
           end.

Definition final_state {A} (o : outcome A) : State :=
  match o with Ok _ s => s | Raised _ s => s end.

(* ===================================================================== *)
(** ** Statements *)
(* ===================================================================== *)

(** [SELECT ... INTO target FROM t WHERE cond]: the first row that
    satisfies the condition; [None] is [NOT FOUND]. *)
Definition select_into {R} (table : Database -> list R) (cond : R -> bool)
  : plpgsql (option R) :=
  fun s => Ok (find cond (table (database s))) s.

(** [WHERE name = p_activity_name AND is_active = true]. *)
Definition activity_matches (p_activity_name : string) (a : Activity.row)
  : bool :=
  String.eqb (Activity.name a) p_activity_name
  && Bool.eqb (Activity.is_active a) true.

(** [WHERE code = p_code AND is_active = true AND expires_at > now()]. *)
Definition qr_code_matches (p_code : string) (now : timestamptz)
    (q : QRCode.row) : bool :=
  String.eqb (QRCode.code q) p_code
  && Bool.eqb (QRCode.is_active q) true
  && (now <? QRCode.expires_at q).

(** Table updates: a new row in [visits], a new row in the ledger, and the
    state with its tables replaced. *)
Definition insert_into_visits (new_row : Visit.row) (db : Database)
  : Database :=
  {| activities := activities db;
     qr_codes := qr_codes db;
     visits := visits db ++ [new_row];
     points_transactions := points_transactions db |}.

Definition insert_into_points_transactions
    (new_row : PointsTransaction.row) (db : Database) : Database :=
  {| activities := activities db;
     qr_codes := qr_codes db;
     visits := visits db;
     points_transactions := points_transactions db ++ [new_row] |}.

Definition set_database (db : Database) (s : State) : State :=
  {| database := db; server_log := server_log s |}.

(** [INSERT INTO visits (user_id) VALUES (v_user_id) RETURNING id]. *)
Definition insert_visit (session : Session) (v_user_id : uuid)
  : plpgsql uuid :=
  fun s =>
    let new_row := {| Visit.id := gen_random_uuid session;
                      Visit.user_id := v_user_id;
                      Visit.created_at := now session |} in
    Ok (Visit.id new_row)
       (set_database (insert_into_visits new_row (database s)) s).

Section AcceptVisit.

(** The ledger mutator's own validation: the error it raises, if any,
    for a new entry against the entries already in the ledger. *)
Variable ledger_error :
  list PointsTransaction.row -> PointsTransaction.row -> option exception.

(** Modelled from the spec: [process_points_transaction], the external
    points ledger mutator, is not part of the source. It is an atomic
    collaborator that either raises its own error or creates one
    PointsTransaction carrying the amount, the kind tag, the note and the
    metadata payload it was called with. *)
Definition process_points_transaction (p_user_id : uuid) (p_amount : Z)
    (p_kind p_note : string) (p_metadata : jsonb) : plpgsql unit :=
  fun s =>
    let entry := {| PointsTransaction.user_id := p_user_id;
                    PointsTransaction.amount := p_amount;
                    PointsTransaction.kind := p_kind;
                    PointsTransaction.note := p_note;
                    PointsTransaction.metadata := p_metadata |} in
    match ledger_error (points_transactions (database s)) entry with
    | Some e => Raised e s
    | None =>
        Ok tt (set_database
                 (insert_into_points_transactions entry (database s)) s)
    end.

(** The statements between the inner [BEGIN] and [EXCEPTION]. *)
Definition accept_visit_body (session : Session)
    (p_code p_activity_name : string) : plpgsql unit :=
  (* Check if user is admin *)
  (if negb (is_admin session)
   then raise_exception "Unauthorized: Admin access required"
   else ret tt) ;;;
  (* Get activity details *)
  found_activity <-
    select_into activities (activity_matches p_activity_name) ;;
  match found_activity with
  | None => raise_exception "Invalid activity type"
  | Some v_activity =>
      (* Get user ID from QR code and validate *)
      found_qr_code <-
        select_into qr_codes (qr_code_matches p_code (now session)) ;;
      match found_qr_code with
      | None => raise_exception "Invalid or expired QR code"
      | Some qr =>
          let v_user_id := QRCode.user_id qr in
          (* Create visit *)
          v_visit_id <- insert_visit session v_user_id ;;
          (* Process points transaction *)
          process_points_transaction
            v_user_id
            (Activity.points v_activity)
            "earn"
            ("Points earned from " ++ Activity.name v_activity)
            (jsonb_build_object
               [ ("qr_code", JString p_code);
                 ("visit_id", JString v_visit_id);
                 ("activity_name", JString (Activity.name v_activity));
                 ("activity_id", JString (Activity.id v_activity)) ])
      end
  end.

(** [WHEN OTHERS THEN RAISE LOG 'Error in accept_visit: %', SQLERRM;
    RAISE;] *)
Definition accept_visit_handler (e : exception) : plpgsql unit :=
  raise_log ("Error in accept_visit: " ++ message e) ;;;
  raise e.

Definition accept_visit (session : Session)
    (p_code p_activity_name : string) : plpgsql unit :=
  begin_exception (accept_visit_body session p_code p_activity_name)
                  when_others accept_visit_handler.

(** A client's call of the function, run as one transaction. *)
Definition call_accept_visit (session : Session)
    (p_code p_activity_name : string) : plpgsql unit :=
  transaction (accept_visit session p_code p_activity_name).

End AcceptVisit.

(** The rows a call writes once both lookups have succeeded: the Visit of
    the code's owner, and the ledger entry handed to the mutator. *)
Definition visit_for (session : Session) (qr : QRCode.row) : Visit.row :=
  {| Visit.id := gen_random_uuid session;
     Visit.user_id := QRCode.user_id qr;
     Visit.created_at := now session |}.

Definition entry_for (session : Session) (p_code : string)
    (v_activity : Activity.row) (qr : QRCode.row) : PointsTransaction.row :=
  {| PointsTransaction.user_id := QRCode.user_id qr;
     PointsTransaction.amount := Activity.points v_activity;
     PointsTransaction.kind := "earn";
     PointsTransaction.note :=
       "Points earned from " ++ Activity.name v_activity;
     PointsTransaction.metadata :=
       jsonb_build_object
         [ ("qr_code", JString p_code);
           ("visit_id", JString (gen_random_uuid session));
           ("activity_name", JString (Activity.name v_activity));
           ("activity_id", JString (Activity.id v_activity)) ] |}.

(** The five ways through [accept_visit_body], as a relation between the
    state a call starts in and how the body ends. *)
Inductive body_run
    (ledger_error :
       list PointsTransaction.row -> PointsTransaction.row ->
       option exception)
    (session : Session) (p_code p_activity_name : string) (s : State)
  : outcome unit -> Prop :=
  | run_unauthorized :
      is_admin session = false ->
      body_run ledger_error session p_code p_activity_name s
               (Raised Unauthorized s)
  | run_invalid_activity :
      is_admin session = true ->
      find (activity_matches p_activity_name) (activities (database s))
        = None ->
      body_run ledger_error session p_code p_activity_name s
               (Raised InvalidActivity s)
  | run_invalid_code v_activity :
      is_admin session = true ->
      find (activity_matches p_activity_name) (activities (database s))
        = Some v_activity ->
      find (qr_code_matches p_code (now session)) (qr_codes (database s))
        = None ->
      body_run ledger_error session p_code p_activity_name s
               (Raised InvalidOrExpiredCode s)
  | run_ledger_error v_activity qr e :
      is_admin session = true ->
      find (activity_matches p_activity_name) (activities (database s))
        = Some v_activity ->
      find (qr_code_matches p_code (now session)) (qr_codes (database s))
        = Some qr ->
      ledger_error (points_transactions (database s))
                   (entry_for session p_code v_activity qr) = Some e ->
      body_run ledger_error session p_code p_activity_name s
               (Raised e
                  (set_database
                     (insert_into_visits (visit_for session qr)
                                         (database s)) s))
  | run_success v_activity qr :
      is_admin session = true ->
      find (activity_matches p_activity_name) (activities (database s))
        = Some v_activity ->
      find (qr_code_matches p_code (now session)) (qr_codes (database s))
        = Some qr ->
      ledger_error (points_transactions (database s))
                   (entry_for session p_code v_activity qr) = None ->
      body_run ledger_error session p_code p_activity_name s
               (Ok tt
                  (set_database
                     (insert_into_points_transactions
                        (entry_for session p_code v_activity qr)
                        (insert_into_visits (visit_for session qr)
                                            (database s))) s)).

(** The validation sequence as the specification words it: caller must be
    an administrator, else [Unauthorized]; the activity name must resolve
    to an active Activity, else [InvalidActivity]; the code must resolve to
    an active, unexpired QRCode, else [InvalidOrExpiredCode]. The result is
    the error of the earliest violated check, if any check is violated. *)
Definition first_violated_check (session : Session)
    (p_code p_activity_name : string) (db : Database) : option exception :=
  if negb (is_admin session) then Some Unauthorized
  else if negb (existsb (activity_matches p_activity_name) (activities db))
  then Some InvalidActivity
  else if negb (existsb (qr_code_matches p_code (now session)) (qr_codes db))
  then Some InvalidOrExpiredCode
  else None.

(** The metadata fields as the specification lists them:
    [{code, visit_id, activity_name, activity_id}]. *)
Definition spec_metadata_fields : gset string :=
  {[ "code"; "visit_id"; "activity_name"; "activity_id" ]}.

(** The metadata fields as the procedure names them. *)
Definition metadata_fields : gset string :=
  {[ "qr_code"; "visit_id"; "activity_name"; "activity_id" ]}.

(* ===================================================================== *)
(** ** The dashboard screen *)
(* ===================================================================== *)

Module Dashboard.

(** What an awaited promise settles to. *)
Inductive settled (A : Type) : Type :=
  | Resolved (a : A)
  | Rejected (err : string).
Arguments Resolved {A} a.
Arguments Rejected {A} err.

(** A thrown value: an [Error] with its message, or anything else. *)
Inductive thrown : Type :=
  | ErrorObject (msg : string)
  | OtherValue.

(** How a [try] body ends. *)
Inductive completion (S : Type) : Type :=
  | Normal (s : S)
  | Throw (err : thrown) (s : S).
Arguments Normal {S} s.
Arguments Throw {S} err s.

Section Screen.

(** The [AdminStats] and [ReviewStats] payloads are only passed on. *)
Variables AdminStats ReviewStats : Type.

(** The backend calls of [@/lib/admin] and [@/lib/reviews], by what
    their promises settle to. *)
Record Api : Type := {
  checkAdminStatus : settled bool;
  getAdminStats : settled (option AdminStats);
  getReviewStats : settled (option ReviewStats)
}.

(** The five [useState] cells of [DashboardScreen]. *)
Record Screen : Type := {
  stats : option AdminStats;
  reviewStats : option ReviewStats;
  loading : bool;
  error : option string;
  isAdmin : bool
}.

Definition setStats (v : option AdminStats) (s : Screen) : Screen :=
  {| stats := v; reviewStats := reviewStats s; loading := loading s;
     error := error s; isAdmin := isAdmin s |}.
Definition setReviewStats (v : option ReviewStats) (s : Screen)
  : Screen :=
  {| stats := stats s; reviewStats := v; loading := loading s;
     error := error s; isAdmin := isAdmin s |}.
Definition setLoading (v : bool) (s : Screen) : Screen :=
  {| stats := stats s; reviewStats := reviewStats s; loading := v;
     error := error s; isAdmin := isAdmin s |}.
Definition setError (v : option string) (s : Screen) : Screen :=
  {| stats := stats s; reviewStats := reviewStats s;
     loading := loading s; error := v; isAdmin := isAdmin s |}.
Definition setIsAdmin (v : bool) (s : Screen) : Screen :=
  {| stats := stats s; reviewStats := reviewStats s;
     loading := loading s; error := error s; isAdmin := v |}.

(** The state of the first render: the [useState] defaults. *)
Definition first_render : Screen :=
  {| stats := None; reviewStats := None; loading := true;
     error := None; isAdmin := false |}.

(** [promise.catch(err => { console.error(...); return null; })]; the
    console line is a diagnostic only and is left out. *)
Definition catch_null {A} (p : settled (option A)) : option A :=
  match p with
  | Resolved v => v
  | Rejected _ => None
  end.

(** [try { body } catch (err) { handler } finally { cleanup }]. *)
Definition try_catch_finally (body : Screen -> completion Screen)
    (handler : thrown -> Screen -> Screen) (cleanup : Screen -> Screen)
  : Screen -> Screen :=
  fun s => cleanup match body s with
                   | Normal s' => s'
                   | Throw err s' => handler err s'
                   end.

(** [checkUserAdmin]: it reads no state cell, so every render's closure
    behaves alike. *)
Definition checkUserAdmin (api : Api) (s : Screen) : Screen :=
  match checkAdminStatus api with
  | Resolved adminStatus => setIsAdmin adminStatus s
  | Rejected _ => setIsAdmin false s
  end.

(** [loadData] as created by a render in which the [isAdmin] constant
    held [isAdmin_at_render]. *)
Definition loadData (isAdmin_at_render : bool) (api : Api)
  : Screen -> Screen :=
  try_catch_finally
    (fun s =>
       let s := setError None s in
       let s := setLoading true s in
       if isAdmin_at_render then
         let adminStatsData := catch_null (getAdminStats api) in
         let reviewStatsData := catch_null (getReviewStats api) in
         let s := setStats adminStatsData s in
         Normal (setReviewStats reviewStatsData s)
       else
         let s := setStats None s in
         Normal (setReviewStats None s))
    (fun err s =>
       setError
         (Some match err with
               | ErrorObject msg => msg
               | OtherValue => "Nie udało się załadować statystyk"
               end) s)
    (setLoading false).

(** [initializeData] as created by the render [render]: it awaits
    [checkUserAdmin] and then calls the [loadData] of that same
    render. *)
Definition initializeData (render : Screen) (api : Api)
  : Screen -> Screen :=
  fun s => loadData (isAdmin render) api (checkUserAdmin api s).

(** [useEffect(() => { ... initializeData(); }, [])]: run once, after
    the first render, with the first render's closures. *)
Definition mount (api : Api) : Screen :=
  initializeData first_render api first_render.

(** [onPress={loadData}] and [onReviewSubmitted={loadData}]: the
    [loadData] of the render that displays the current state. *)
Definition refresh (api : Api) (s : Screen) : Screen :=
  loadData (isAdmin s) api s.

End Screen.

Arguments checkAdminStatus {AdminStats ReviewStats} _.
Arguments getAdminStats {AdminStats ReviewStats} _.
Arguments getReviewStats {AdminStats ReviewStats} _.
Arguments stats {AdminStats ReviewStats} _.
Arguments reviewStats {AdminStats ReviewStats} _.
Arguments loading {AdminStats ReviewStats} _.
Arguments error {AdminStats ReviewStats} _.
Arguments isAdmin {AdminStats ReviewStats} _.
Arguments mount {AdminStats ReviewStats} _.
Arguments refresh {AdminStats ReviewStats} _ _.

End Dashboard.

(* ===================================================================== *)
(** ** Sample data *)
(* ===================================================================== *)

Module Sample.

Definition gym : Activity.row :=
  {| Activity.id := "a-gym"; Activity.name := "gym";
     Activity.points := 10; Activity.is_active := true |}.

Definition yoga : Activity.row :=
  {| Activity.id := "a-yoga"; Activity.name := "yoga";
     Activity.points := 5; Activity.is_active := false |}.

(** A code that is active until time 1000, and one that expired at 90. *)
Definition fresh_code : QRCode.row :=
  {| QRCode.code := "QR-1"; QRCode.user_id := "u-1";
     QRCode.is_active := true; QRCode.expires_at := 1000 |}.

Definition stale_code : QRCode.row :=
  {| QRCode.code := "QR-2"; QRCode.user_id := "u-2";
     QRCode.is_active := true; QRCode.expires_at := 90 |}.

Definition db : Database :=
  {| activities := [yoga; gym];
     qr_codes := [stale_code; fresh_code];
     visits := [];
     points_transactions := [] |}.

Definition state : State := {| database := db; server_log := [] |}.

Definition admin : Session :=
  {| is_admin := true; now := 100; gen_random_uuid := "v-1" |}.

Definition admin_again : Session :=
  {| is_admin := true; now := 101; gen_random_uuid := "v-2" |}.

Definition customer : Session :=
  {| is_admin := false; now := 100; gen_random_uuid := "v-1" |}.

(** A ledger that takes every entry, one that refuses every entry with
    an error of its own, and one whose statement is cancelled by the
    statement timeout. *)
Definition accepting
  : list PointsTransaction.row -> PointsTransaction.row ->
    option exception :=
  fun _ _ => None.

Definition refusal : exception :=
  {| sqlstate := "P0001"; message := "Invalid transaction" |}.

Definition refusing
  : list PointsTransaction.row -> PointsTransaction.row ->
    option exception :=
  fun _ _ => Some refusal.

Definition timeout : exception :=
  {| sqlstate := query_canceled;
     message := "canceling statement due to statement timeout" |}.

Definition timing_out
  : list PointsTransaction.row -> PointsTransaction.row ->
    option exception :=
  fun _ _ => Some timeout.

(** The entry and the state of the administrator's first call with code
    ["QR-1"] and activity ["gym"] against the accepting ledger. *)
Definition first_entry : PointsTransaction.row :=
  entry_for admin "QR-1" gym fresh_code.

Definition state_after_first : State :=
  set_database
    (insert_into_points_transactions first_entry
       (insert_into_visits (visit_for admin fresh_code) db))
    state.

Definition ok_stats : Dashboard.settled (option nat) :=
  Dashboard.Resolved (Some 7%nat).

(** A backend that answers an administrator. *)
Definition admin_api : Dashboard.Api nat nat :=
  {| Dashboard.checkAdminStatus := Dashboard.Resolved true;
     Dashboard.getAdminStats := ok_stats;
     Dashboard.getReviewStats := Dashboard.Resolved (Some 3%nat) |}.

End Sample.

(* ===================================================================== *)
(** ** Sequences of calls *)
(* ===================================================================== *)

(** One call of [accept_visit]: who calls, and the two arguments. *)
Record Call : Type := {
  caller : Session;
  call_code : string;
  call_activity_name : string
}.

Section Calls.

Variable ledger_error :
  list PointsTransaction.row -> PointsTransaction.row -> option exception.

(** The state a call leaves, whether it returned or raised. *)
Definition perform (s : State) (c : Call) : State :=
  final_state
    (call_accept_visit ledger_error
       (caller c) (call_code c) (call_activity_name c) s).

(** Calls made one after the other, each as its own transaction. *)
Definition perform_all (cs : list Call) (s : State) : State :=
  fold_left perform cs s.

Definition returns (s : State) (c : Call) : bool :=
  match call_accept_visit ledger_error
          (caller c) (call_code c) (call_activity_name c) s with
  | Ok _ _ => true
  | Raised _ _ => false
  end.

(** How many of the calls returned. *)
Fixpoint returned (cs : list Call) (s : State) : nat :=
  match cs with
  | [] => 0%nat
  | c :: cs' =>
      ((if returns s c then 1 else 0) + returned cs' (perform s c))%nat
  end.

End Calls.

(** A ledger entry that belongs to a Visit: same user, kind ["earn"], and
    the Visit's id under [visit_id] in the metadata. *)
Definition links_back (v : Visit.row) (e : PointsTransaction.row) : Prop :=
  PointsTransaction.user_id e = Visit.user_id v
  /\ PointsTransaction.kind e = "earn"
  /\ PointsTransaction.metadata e !! "visit_id"
     = Some (JString (Visit.id v)).

(** The rows a call would write, read off the two tables it consults and
    the ledger's answer for the entry: [None] when the call raises. *)
Definition rows_written
    (ledger_error :
       list PointsTransaction.row -> PointsTransaction.row ->
       option exception)
    (c : Call) (db : Database)
  : option (Visit.row * PointsTransaction.row) :=
  if is_admin (caller c) then
    match find (activity_matches (call_activity_name c)) (activities db),
          find (qr_code_matches (call_code c) (now (caller c)))
               (qr_codes db) with
    | Some v_activity, Some qr =>
        let entry := entry_for (caller c) (call_code c) v_activity qr in
        match ledger_error (points_transactions db) entry with
        | None => Some (visit_for (caller c) qr, entry)
        | Some _ => None
        end
    | _, _ => None
    end
  else None.

(* ===================================================================== *)
(** ** What the dashboard screen shows *)
(* ===================================================================== *)

Module DashboardView.

Section View.

(** JavaScript numbers are only displayed, through [value || 0]: what is
    needed of them is the number [0] and which numbers are truthy. *)
Variable number : Type.
Variable zero : number.
Variable truthy : number -> bool.

Variable ReviewStats : Type.

(** [interface AdminStats]. *)
Record AdminStats : Type := {
  visits_count : number;
  rewards_used : number;
  points_awarded : number;
  capacity_percentage : number
}.

Abbreviation Screen := (Dashboard.Screen AdminStats ReviewStats).
Abbreviation Api := (Dashboard.Api AdminStats ReviewStats).

(** [stats?.field || 0]. *)
Definition or_zero (stats : option AdminStats)
    (field : AdminStats -> number) : number :=
  match stats with
  | Some st => if truthy (field st) then field st else zero
  | None => zero
  end.

(** The body of the statistics container: [CardSkeleton] while loading,
    the error text with its retry button, or the grid of four values. *)
Inductive StatsPanel : Type :=
  | CardSkeleton
  | ErrorContainer (errorText : string)
  | StatsGrid (visits rewards points capacity : number).

(** What [DashboardScreen] returns, by its conditional parts: the review
    statistics block, the administrator card, and the statistics
    container. The header, the feedback form and the two cards every user
    gets are always part of the page. *)
Inductive View : Type :=
  | DashboardSkeleton
  | Page (reviewStatsContainer : option ReviewStats)
         (adminCard : bool)
         (statsContainer : option StatsPanel).

(** [loading ? <CardSkeleton /> : error ? (...) : (...)]; an empty error
    string is falsy. *)
Definition stats_panel (s : Screen) : StatsPanel :=
  if Dashboard.loading s then CardSkeleton
  else
    let grid :=
      StatsGrid (or_zero (Dashboard.stats s) visits_count)
                (or_zero (Dashboard.stats s) rewards_used)
                (or_zero (Dashboard.stats s) points_awarded)
                (or_zero (Dashboard.stats s) capacity_percentage) in
    match Dashboard.error s with
    | Some msg => if String.eqb msg "" then grid else ErrorContainer msg
    | None => grid
    end.

(** The component's return value for the state [s]. *)
Definition render (s : Screen) : View :=
  if Dashboard.loading s then DashboardSkeleton
  else
    Page (if Dashboard.isAdmin s then Dashboard.reviewStats s else None)
         (Dashboard.isAdmin s)
         (if Dashboard.isAdmin s then Some (stats_panel s) else None).

(** The screen after it mounted against [api0] and [loadData] was then
    triggered once for each backend of [apis], in order (the refresh and
    retry buttons, a submitted review). *)
Definition screen_after (api0 : Api) (apis : list Api) : Screen :=
  fold_left (fun s api => Dashboard.refresh api s) apis
            (Dashboard.mount api0).

End View.

Arguments visits_count {number} _.
Arguments rewards_used {number} _.
Arguments points_awarded {number} _.
Arguments capacity_percentage {number} _.
Arguments CardSkeleton {number}.
Arguments ErrorContainer {number} errorText.
Arguments StatsGrid {number} visits rewards points capacity.
Arguments DashboardSkeleton {number ReviewStats}.
Arguments Page {number ReviewStats} _ _ _.
Arguments screen_after {number ReviewStats} api0 apis.

(** [renderMoodIcon]: the [icons] object, looked up by an integer mood. *)
Definition icons : gmap Z string :=
  <[1 := "sad-outline"]>
    (<[2 := "sad"]>
       (<[3 := "happy-outline"]>
          (<[4 := "happy"]> (<[5 := "heart"]> ∅)))).

(** [icons[mood] || 'help-circle-outline']. *)
Definition renderMoodIcon (mood : Z) : string :=
  match icons !! mood with
  | Some icon => if String.eqb icon "" then "help-circle-outline" else icon
  | None => "help-circle-outline"
  end.

(** The [backgroundColor] of a mood bar, by the key of the entry. *)
Definition moodBarColor (mood : string) : string :=
  if String.eqb mood "5" then "#ff3b7f"
  else if String.eqb mood "4" then "#ff6b9f"
  else if String.eqb mood "3" then "#ff9bbf"
  else if String.eqb mood "2" then "#ffcbdf"
  else "#ffebf0".

End DashboardView.

(** Data for the screen: numbers as naturals, of which [0] alone is
    falsy. *)
Module Scenario.

Definition truthy (n : nat) : bool := negb (Nat.eqb n 0).

Abbreviation Stats := (DashboardView.AdminStats nat).
Abbreviation Api := (Dashboard.Api Stats nat).

Definition today : Stats :=
  {| DashboardView.visits_count := 12%nat;
     DashboardView.rewards_used := 0%nat;
     DashboardView.points_awarded := 340%nat;
     DashboardView.capacity_percentage := 55%nat |}.

(** Backends: for an administrator, for a customer, one whose admin
    check fails, and an administrator's whose statistics request fails
    while the review statistics arrive. *)
Definition admin_api : Api :=
  {| Dashboard.checkAdminStatus := Dashboard.Resolved true;
     Dashboard.getAdminStats := Dashboard.Resolved (Some today);
     Dashboard.getReviewStats := Dashboard.Resolved (Some 4%nat) |}.

Definition customer_api : Api :=
  {| Dashboard.checkAdminStatus := Dashboard.Resolved false;
     Dashboard.getAdminStats := Dashboard.Resolved (Some today);
     Dashboard.getReviewStats := Dashboard.Resolved (Some 4%nat) |}.

Definition offline_api : Api :=
  {| Dashboard.checkAdminStatus := Dashboard.Rejected "Network error";
     Dashboard.getAdminStats := Dashboard.Rejected "Network error";
     Dashboard.getReviewStats := Dashboard.Rejected "Network error" |}.


(** Calls against the sample database. *)
Definition first_visit : Call :=
  {| caller := Sample.admin; call_code := "QR-1";
     call_activity_name := "gym" |}.

Definition second_visit : Call :=
  {| caller := Sample.admin_again; call_code := "QR-1";
     call_activity_name := "gym" |}.

Definition intruder : Call :=
  {| caller := Sample.customer; call_code := "QR-1";
     call_activity_name := "gym" |}.

Definition stale_visit : Call :=
  {| caller := Sample.admin; call_code := "QR-2";
     call_activity_name := "gym" |}.

End Scenario.

(* ===================================================================== *)
(** ** Requests and the moments they are served at *)
(* ===================================================================== *)

(** What a client sends: its standing with [is_admin()] and the two
    arguments. *)
Record Request : Type := {
  by_admin : bool;
  request_code : string;
  request_activity_name : string
}.

(** What the server adds when a call runs: the value of [now()] and the
    identifier generated for the Visit. *)
Record Moment : Type := {
  clock : timestamptz;
  fresh_id : uuid
}.

(** The call that serving a request at a moment amounts to. *)
Definition call_at (r : Request) (m : Moment) : Call :=
  {| caller := {| is_admin := by_admin r;
                  now := clock m;
                  gen_random_uuid := fresh_id m |};
     call_code := request_code r;
     call_activity_name := request_activity_name r |}.

(** Requests served one after the other: the first at the first moment,
    the second at the second, and so on. *)
Fixpoint schedule (rs : list Request) (ms : list Moment) : list Call :=
  match rs, ms with
  | r :: rs', m :: ms' => call_at r m :: schedule rs' ms'
  | _, _ => []
  end.

(** What a ledger entry awards: to whom, how much, of which kind, with
    which note. The metadata is left aside. *)
Definition award (e : PointsTransaction.row)
  : uuid * Z * string * string :=
  (PointsTransaction.user_id e, PointsTransaction.amount e,
   PointsTransaction.kind e, PointsTransaction.note e).

(** Whose visit a pair of rows records, and what its entry awards. *)
Definition summary (rows : Visit.row * PointsTransaction.row)
  : uuid * (uuid * Z * string * string) :=
  (Visit.user_id rows.1, award rows.2).

(** At the moment [m] the same codes are unexpired as at the time [t]. *)
Definition same_codes_valid (db : Database) (t : timestamptz) (m : Moment)
  : Prop :=
  forall q, In q (qr_codes db) ->
            (clock m <? QRCode.expires_at q) = (t <? QRCode.expires_at q).

(* ===================================================================== *)
(** ** The data load, with backend calls that may throw *)
(* ===================================================================== *)

Module DashboardLoad.

(** A backend call as [loadData] makes it: invoking the function either
    throws at once or returns a promise, which then settles. *)
Inductive invoked (A : Type) : Type :=
  | Returns (promise : Dashboard.settled A)
  | Throws (err : Dashboard.thrown).
Arguments Returns {A} promise.
Arguments Throws {A} err.

Section Load.

Variables AdminStats ReviewStats : Type.

Abbreviation Screen := (Dashboard.Screen AdminStats ReviewStats).

Record Api : Type := {
  getAdminStats : invoked (option AdminStats);
  getReviewStats : invoked (option ReviewStats)
}.

(** [err instanceof Error ? err.message : '...']. *)
Definition error_text (err : Dashboard.thrown) : string :=
  match err with
  | Dashboard.ErrorObject msg => msg
  | Dashboard.OtherValue => "Nie udało się załadować statystyk"
  end.

(** [loadData] as created by a render in which [isAdmin] held
    [isAdmin_at_render]. The two elements of the array given to
    [Promise.all] are evaluated in order: a call that throws ends the
    [try] body there, before the next call is made. *)
Definition loadData (isAdmin_at_render : bool) (api : Api)
  : Screen -> Screen :=
  Dashboard.try_catch_finally AdminStats ReviewStats
    (fun s =>
       let s := Dashboard.setError AdminStats ReviewStats None s in
       let s := Dashboard.setLoading AdminStats ReviewStats true s in
       if isAdmin_at_render then
         match getAdminStats api with
         | Throws err => Dashboard.Throw err s
         | Returns adminPromise =>
             match getReviewStats api with
             | Throws err => Dashboard.Throw err s
             | Returns reviewPromise =>
                 let adminStatsData := Dashboard.catch_null adminPromise in
                 let reviewStatsData :=
                   Dashboard.catch_null reviewPromise in
                 let s :=
                   Dashboard.setStats AdminStats ReviewStats
                     adminStatsData s in
                 Dashboard.Normal
                   (Dashboard.setReviewStats AdminStats ReviewStats
                      reviewStatsData s)
             end
         end
       else
         let s := Dashboard.setStats AdminStats ReviewStats None s in
         Dashboard.Normal
           (Dashboard.setReviewStats AdminStats ReviewStats None s))
    (fun err s =>
       Dashboard.setError AdminStats ReviewStats
         (Some (error_text err)) s)
    (Dashboard.setLoading AdminStats ReviewStats false).

(** A backend whose calls all return their promise. *)
Definition returning (api : Dashboard.Api AdminStats ReviewStats) : Api :=
  {| getAdminStats := Returns (Dashboard.getAdminStats api);
     getReviewStats := Returns (Dashboard.getReviewStats api) |}.

End Load.

Arguments getAdminStats {AdminStats ReviewStats} _.
Arguments getReviewStats {AdminStats ReviewStats} _.
Arguments loadData {AdminStats ReviewStats} _ _ _.
Arguments returning {AdminStats ReviewStats} _.

End DashboardLoad.

(** Further data: requests and moments against the sample database, and a
    backend whose statistics call throws when invoked. *)
Module Cases.

Definition gym_visit : Request :=
  {| by_admin := true; request_code := "QR-1";
     request_activity_name := "gym" |}.

Definition stale_visit : Request :=
  {| by_admin := true; request_code := "QR-2";
     request_activity_name := "gym" |}.

Definition outsider : Request :=
  {| by_admin := false; request_code := "QR-1";
     request_activity_name := "gym" |}.

Definition moments : list Moment :=
  [ {| clock := 100; fresh_id := "v-1" |};
    {| clock := 101; fresh_id := "v-2" |};
    {| clock := 102; fresh_id := "v-3" |} ].

Definition throwing_api : DashboardLoad.Api Scenario.Stats nat :=
  {| DashboardLoad.getAdminStats :=
       DashboardLoad.Throws (Dashboard.ErrorObject "supabase is undefined");
     DashboardLoad.getReviewStats :=
       DashboardLoad.Returns (Dashboard.Resolved (Some 4%nat)) |}.

Definition shown : Dashboard.Screen Scenario.Stats nat :=
  {| Dashboard.stats := Some Scenario.today;
     Dashboard.reviewStats := Some 4%nat;
     Dashboard.loading := false;
     Dashboard.error := None;
     Dashboard.isAdmin := true |}.

End Cases.

(* ===================================================================== *)
(** ** Properties of [accept_visit] *)
(* ===================================================================== *)

(** The line the [WHEN OTHERS] handler writes for an error. *)
Definition log_line (e : exception) : string :=
  "Error in accept_visit: " +:+ message e.

Lemma find_existsb {A} (f : A -> bool) (l : list A) :
  existsb f l = match find f l with Some _ => true | None => false end.
Proof.
  induction l as [|x l IH]; simpl; [reflexivity|].
  destruct (f x); [reflexivity | exact IH].
Qed.

Lemma find_none_iff {A} (f : A -> bool) (l : list A) :
  find f l = None <-> (forall x, In x l -> f x = false).
Proof.
  split; [intros H x Hx; exact (find_none f l H x Hx)|].
  induction l as [|x l IH]; simpl; intros H; [reflexivity|].
  rewrite (H x (or_introl eq_refl)). apply IH.
  intros y Hy. apply H. right. exact Hy.
Qed.

Lemma activity_matches_true p_activity_name a :
  activity_matches p_activity_name a = true <->
  Activity.name a = p_activity_name /\ Activity.is_active a = true.
Proof.
  unfold activity_matches.
  rewrite Bool.andb_true_iff, String.eqb_eq, Bool.eqb_true_iff.
  reflexivity.
Qed.

Lemma qr_code_matches_true p_code t q :
  qr_code_matches p_code t q = true <->
  QRCode.code q = p_code /\ QRCode.is_active q = true
  /\ t < QRCode.expires_at q.
Proof.
  unfold qr_code_matches.
  rewrite !Bool.andb_true_iff, String.eqb_eq, Bool.eqb_true_iff,
    Z.ltb_lt.
  tauto.
Qed.

Section AcceptVisitProperties.

Variable ledger_error :
  list PointsTransaction.row -> PointsTransaction.row -> option exception.

(** The body always ends in one of the five ways of [body_run]. *)
Lemma accept_visit_body_run session p_code p_activity_name s :
  body_run ledger_error session p_code p_activity_name s
           (accept_visit_body ledger_error session p_code p_activity_name s).
Proof.
  unfold accept_visit_body, bind, select_into, raise_exception, raise, ret.
  destruct (is_admin session) eqn:Hadmin; simpl.
  2: { apply run_unauthorized; assumption. }
  destruct (find _ (activities _)) as [v_activity|] eqn:Hact.
  2: { apply run_invalid_activity; assumption. }
  destruct (find _ (qr_codes _)) as [qr|] eqn:Hqr.
  2: { eapply run_invalid_code; eassumption. }
  unfold process_points_transaction; simpl.
  destruct (ledger_error _ _) as [e|] eqn:Hledger.
  - exact (run_ledger_error _ _ _ _ _ v_activity qr e
             Hadmin Hact Hqr Hledger).
  - exact (run_success _ _ _ _ _ v_activity qr Hadmin Hact Hqr Hledger).
Qed.

(** The body writes nothing to the server log. *)
Lemma body_run_server_log session p_code p_activity_name s o :
  body_run ledger_error session p_code p_activity_name s o ->
  server_log (final_state o) = server_log s.
Proof. intros H; inversion H; reflexivity. Qed.

(** A call in terms of its body: a result is passed on; an error is
    passed on with the tables restored, after one log line when
    [WHEN OTHERS] matches it. *)
Lemma call_unfold session p_code p_activity_name s :
  call_accept_visit ledger_error session p_code p_activity_name s =
  match accept_visit_body ledger_error session p_code p_activity_name s with
  | Ok a s' => Ok a s'
  | Raised e s' =>
      Raised e
        {| database := database s;
           server_log :=
             server_log s' ++
             (if when_others e then [log_line e] else []) |}
  end.
Proof.
  unfold call_accept_visit, transaction, accept_visit, begin_exception.
  destruct (accept_visit_body _ _ _ _ s) as [a s'|e s']; [reflexivity|].
  destruct (when_others e); unfold rollback; simpl.
  - reflexivity.
  - rewrite app_nil_r. reflexivity.
Qed.

(** What a call that raises leaves behind. *)
Lemma call_raised session p_code p_activity_name s e dirty :
  accept_visit_body ledger_error session
    p_code p_activity_name s = Raised e dirty ->
  call_accept_visit ledger_error session p_code p_activity_name s =
  Raised e
    {| database := database s;
       server_log :=
         server_log s ++ (if when_others e then [log_line e] else []) |}.
Proof.
  intros Hbody. rewrite call_unfold, Hbody.
  pose proof (body_run_server_log _ _ _ _ _
                (accept_visit_body_run session p_code p_activity_name s))
    as Hlog.
  rewrite Hbody in Hlog. simpl in Hlog. rewrite Hlog. reflexivity.
Qed.

Lemma call_raised_inv session p_code p_activity_name s e s' :
  call_accept_visit ledger_error session
    p_code p_activity_name s = Raised e s' ->
  exists dirty,
    accept_visit_body ledger_error session
      p_code p_activity_name s = Raised e dirty.
Proof.
  rewrite call_unfold.
  destruct (accept_visit_body _ _ _ _ s) as [a d|e' d]; [discriminate|].
  intros H; injection H as -> _. exists d. reflexivity.
Qed.

(** X18. When the handler runs, the exception block has by itself
    restored the tables, before the calling transaction aborts. *)
Lemma accept_visit_block_rollback session p_code p_activity_name s e s' :
  accept_visit ledger_error session p_code p_activity_name s
  = Raised e s' ->
  when_others e = true ->
  database s' = database s.
Proof.
  unfold accept_visit, begin_exception.
  destruct (accept_visit_body _ _ _ _ s) as [a d|e0 d]; [discriminate|].
  destruct (when_others e0) eqn:Htrap.
  - unfold accept_visit_handler, bind, raise_log, raise, rollback; simpl.
    intros [= <- <-] _. reflexivity.
  - intros [= <- <-] Htrap'. congruence.
Qed.

(** C1. A call to [accept_visit] that fails, at whichever step and from
    whichever error (those of the ledger mutator included), leaves the
    database as it was before the call: the Visit row inserted earlier in
    the call is gone, and only the server log may have grown. *)
Theorem accept_visit_atomic session p_code p_activity_name s e s' :
  call_accept_visit ledger_error session
    p_code p_activity_name s = Raised e s' ->
  database s' = database s
  /\ visits (database s') = visits (database s).
Proof.
  intros Hcall.
  destruct (call_raised_inv _ _ _ _ _ _ Hcall) as [dirty Hbody].
  rewrite (call_raised _ _ _ _ _ _ Hbody) in Hcall.
  injection Hcall as <-. split; reflexivity.
Qed.

(** When the ledger mutator is the step that fails, the Visit row had
    been inserted by the time of the error. *)
Lemma ledger_error_after_insert session p_code p_activity_name s
    v_activity qr e :
  is_admin session = true ->
  find (activity_matches p_activity_name) (activities (database s))
    = Some v_activity ->
  find (qr_code_matches p_code (now session)) (qr_codes (database s))
    = Some qr ->
  ledger_error (points_transactions (database s))
               (entry_for session p_code v_activity qr) = Some e ->
  exists dirty,
    accept_visit_body ledger_error session
      p_code p_activity_name s = Raised e dirty
    /\ visits (database dirty)
       = visits (database s) ++ [visit_for session qr].
Proof.
  intros Hadmin Hact Hqr Hledger.
  pose proof (accept_visit_body_run session p_code p_activity_name s)
    as Hrun.
  inversion Hrun
    as [Ha | Ha Hf | a Ha Hf Hq | a q e' Ha Hf Hq Hl Heq
        | a q Ha Hf Hq Hl Heq];
    try congruence.
  assert (a = v_activity) by congruence.
  assert (q = qr) by congruence. subst a q.
  assert (e' = e) by congruence. subst e'.
  eexists. split; reflexivity.
Qed.

(** The three validation failures, at the level of the body. *)
Lemma body_unauthorized session p_code p_activity_name s :
  is_admin session = false ->
  accept_visit_body ledger_error session
    p_code p_activity_name s = Raised Unauthorized s.
Proof.
  intros Hadmin.
  pose proof (accept_visit_body_run session p_code p_activity_name s)
    as Hrun.
  inversion Hrun; congruence.
Qed.

Lemma body_invalid_activity session p_code p_activity_name s :
  is_admin session = true ->
  find (activity_matches p_activity_name) (activities (database s))
    = None ->
  accept_visit_body ledger_error session
    p_code p_activity_name s = Raised InvalidActivity s.
Proof.
  intros Hadmin Hact.
  pose proof (accept_visit_body_run session p_code p_activity_name s)
    as Hrun.
  inversion Hrun; congruence.
Qed.

Lemma body_invalid_code session p_code p_activity_name s v_activity :
  is_admin session = true ->
  find (activity_matches p_activity_name) (activities (database s))
    = Some v_activity ->
  find (qr_code_matches p_code (now session)) (qr_codes (database s))
    = None ->
  accept_visit_body ledger_error session
    p_code p_activity_name s = Raised InvalidOrExpiredCode s.
Proof.
  intros Hadmin Hact Hqr.
  pose proof (accept_visit_body_run session p_code p_activity_name s)
    as Hrun.
  inversion Hrun; congruence.
Qed.

(** C3. A caller who is not an administrator gets [Unauthorized],
    whatever the code and the activity name are, and the call creates no
    Visit row and no ledger entry. *)
Theorem accept_visit_unauthorized session p_code p_activity_name s :
  is_admin session = false ->
  exists s',
    call_accept_visit ledger_error session
      p_code p_activity_name s = Raised Unauthorized s'
    /\ database s' = database s
    /\ visits (database s') = visits (database s)
    /\ points_transactions (database s')
       = points_transactions (database s).
Proof.
  intros Hadmin.
  eexists. split.
  - apply (call_raised _ _ _ _ _ _
             (body_unauthorized session p_code p_activity_name s Hadmin)).
  - repeat split.
Qed.

(** C4. An administrator's call whose activity name matches no Activity
    row with [is_active = true] (the name is unknown, or the activity is
    inactive) fails with [InvalidActivity] and leaves the database
    unchanged. *)
Theorem accept_visit_invalid_activity session p_code p_activity_name s :
  is_admin session = true ->
  (forall a, In a (activities (database s)) ->
             Activity.name a = p_activity_name ->
             Activity.is_active a = true -> False) ->
  exists s',
    call_accept_visit ledger_error session
      p_code p_activity_name s = Raised InvalidActivity s'
    /\ database s' = database s.
Proof.
  intros Hadmin Hnone.
  assert (find (activity_matches p_activity_name)
               (activities (database s)) = None) as Hact.
  { apply find_none_iff. intros a Ha.
    destruct (activity_matches p_activity_name a) eqn:Hm; [|reflexivity].
    apply activity_matches_true in Hm as [Hname Hactive].
    destruct (Hnone a Ha Hname Hactive). }
  eexists. split.
  - apply (call_raised _ _ _ _ _ _
             (body_invalid_activity session p_code p_activity_name s
                Hadmin Hact)).
  - reflexivity.
Qed.

(** C5. An administrator's call with an active activity, whose code
    matches no QRCode row with [is_active = true] and
    [expires_at > now()] (the code is unknown, inactive, or expired,
    [expires_at <= now()]), fails with [InvalidOrExpiredCode] and leaves
    the database unchanged. *)
Theorem accept_visit_invalid_code session p_code p_activity_name s :
  is_admin session = true ->
  (exists a, In a (activities (database s))
             /\ Activity.name a = p_activity_name
             /\ Activity.is_active a = true) ->
  (forall q, In q (qr_codes (database s)) ->
             QRCode.code q = p_code ->
             QRCode.is_active q = true ->
             QRCode.expires_at q <= now session) ->
  exists s',
    call_accept_visit ledger_error session
      p_code p_activity_name s = Raised InvalidOrExpiredCode s'
    /\ database s' = database s.
Proof.
  intros Hadmin (a & Ha & Hname & Hactive) Hnone.
  destruct (find (activity_matches p_activity_name)
                 (activities (database s))) as [v_activity|] eqn:Hact.
  2: { apply find_none_iff with (x := a) in Hact; [|exact Ha].
       assert (activity_matches p_activity_name a = true) as Hm
         by (apply activity_matches_true; split; assumption).
       congruence. }
  assert (find (qr_code_matches p_code (now session))
               (qr_codes (database s)) = None) as Hqr.
  { apply find_none_iff. intros q Hq.
    destruct (qr_code_matches p_code (now session) q) eqn:Hm;
      [|reflexivity].
    apply qr_code_matches_true in Hm as (Hcode & Hqactive & Hlt).
    specialize (Hnone q Hq Hcode Hqactive). lia. }
  eexists. split.
  - apply (call_raised _ _ _ _ _ _
             (body_invalid_code session p_code p_activity_name s
                v_activity Hadmin Hact Hqr)).
  - reflexivity.
Qed.

(** C9. The checks run in the order authorization, activity, QR code:
    whenever some check is violated, the call raises the error of the
    earliest violated one. In particular an administrator's call with
    both an invalid activity and an invalid code fails with
    [InvalidActivity], which is not [InvalidOrExpiredCode]. *)
Theorem accept_visit_check_order session p_code p_activity_name s :
  (forall e,
      first_violated_check session p_code p_activity_name (database s)
        = Some e ->
      exists s',
        call_accept_visit ledger_error session
          p_code p_activity_name s = Raised e s')
  /\ (is_admin session = false ->
      exists s',
        call_accept_visit ledger_error session
          p_code p_activity_name s = Raised Unauthorized s')
  /\ (is_admin session = true ->
      existsb (activity_matches p_activity_name)
              (activities (database s)) = false ->
      existsb (qr_code_matches p_code (now session))
              (qr_codes (database s)) = false ->
      exists s',
        call_accept_visit ledger_error session
          p_code p_activity_name s = Raised InvalidActivity s')
  /\ InvalidActivity <> InvalidOrExpiredCode
  /\ Unauthorized <> InvalidActivity
  /\ Unauthorized <> InvalidOrExpiredCode.
Proof.
  assert (forall e,
      first_violated_check session p_code p_activity_name (database s)
        = Some e ->
      exists s',
        call_accept_visit ledger_error session
          p_code p_activity_name s = Raised e s') as Hfirst.
  { intros e. unfold first_violated_check.
    rewrite !find_existsb.
    destruct (is_admin session) eqn:Hadmin; simpl.
    2: { intros [= <-]. eexists.
         apply (call_raised _ _ _ _ _ _
                  (body_unauthorized session p_code p_activity_name s
                     Hadmin)). }
    destruct (find (activity_matches p_activity_name) _)
      as [v_activity|] eqn:Hact; simpl.
    2: { intros [= <-]. eexists.
         apply (call_raised _ _ _ _ _ _
                  (body_invalid_activity session p_code p_activity_name s
                     Hadmin Hact)). }
    destruct (find (qr_code_matches p_code (now session)) _)
      as [qr|] eqn:Hqr; simpl; [discriminate|].
    intros [= <-]. eexists.
    apply (call_raised _ _ _ _ _ _
             (body_invalid_code session p_code p_activity_name s
                v_activity Hadmin Hact Hqr)). }
  split; [exact Hfirst|].
  split.
  { intros Hadmin. apply Hfirst. unfold first_violated_check.
    rewrite Hadmin. reflexivity. }
  split.
  { intros Hadmin Hact _. apply Hfirst. unfold first_violated_check.
    rewrite Hadmin, Hact. reflexivity. }
  repeat split; discriminate.
Qed.

(** What a call that returns has done. *)
Lemma call_ok_inv session p_code p_activity_name s r s' :
  call_accept_visit ledger_error session p_code p_activity_name s = Ok r s' ->
  exists v_activity qr,
    is_admin session = true
    /\ find (activity_matches p_activity_name) (activities (database s))
       = Some v_activity
    /\ find (qr_code_matches p_code (now session)) (qr_codes (database s))
       = Some qr
    /\ ledger_error (points_transactions (database s))
                    (entry_for session p_code v_activity qr) = None
    /\ s' = set_database
              (insert_into_points_transactions
                 (entry_for session p_code v_activity qr)
                 (insert_into_visits (visit_for session qr) (database s)))
              s.
Proof.
  rewrite call_unfold.
  pose proof (accept_visit_body_run session p_code p_activity_name s)
    as Hrun.
  inversion Hrun
    as [Ha | Ha Hf | a Ha Hf Hq | a q e' Ha Hf Hq Hl Heq
        | a q Ha Hf Hq Hl Heq];
    try discriminate.
  intros [= _ <-]. exists a, q. repeat split; assumption.
Qed.

Lemma call_ok session p_code p_activity_name s v_activity qr :
  is_admin session = true ->
  find (activity_matches p_activity_name) (activities (database s))
    = Some v_activity ->
  find (qr_code_matches p_code (now session)) (qr_codes (database s))
    = Some qr ->
  ledger_error (points_transactions (database s))
               (entry_for session p_code v_activity qr) = None ->
  call_accept_visit ledger_error session p_code p_activity_name s =
  Ok tt (set_database
           (insert_into_points_transactions
              (entry_for session p_code v_activity qr)
              (insert_into_visits (visit_for session qr) (database s)))
           s).
Proof.
  intros Hadmin Hact Hqr Hledger.
  rewrite call_unfold.
  pose proof (accept_visit_body_run session p_code p_activity_name s)
    as Hrun.
  inversion Hrun
    as [Ha | Ha Hf | a Ha Hf Hq | a q e' Ha Hf Hq Hl Heq
        | a q Ha Hf Hq Hl Heq];
    congruence.
Qed.

(** The metadata object of the ledger entry, field by field. *)
Lemma entry_for_metadata session p_code v_activity qr :
  let m := PointsTransaction.metadata
             (entry_for session p_code v_activity qr) in
  dom m = metadata_fields
  /\ m !! "qr_code" = Some (JString p_code)
  /\ m !! "visit_id" = Some (JString (gen_random_uuid session))
  /\ m !! "activity_name" = Some (JString (Activity.name v_activity))
  /\ m !! "activity_id" = Some (JString (Activity.id v_activity))
  /\ m !! "code" = None.
Proof.
  unfold entry_for, jsonb_build_object, metadata_fields; simpl.
  split.
  { rewrite !dom_insert_L, dom_empty_L. set_solver. }
  repeat split; by simplify_map_eq.
Qed.

(** C2, as amended. On success the metadata payload of the ledger entry
    has exactly the four fields [qr_code], [visit_id], [activity_name]
    and [activity_id]: [qr_code] holds the code argument, [visit_id] the
    id of the Visit row created by the call, [activity_name] and
    [activity_id] the name and the id of the resolved Activity. *)
Theorem accept_visit_metadata session p_code p_activity_name s r s' :
  call_accept_visit ledger_error session p_code p_activity_name s = Ok r s' ->
  exists v_activity visit entry,
    find (activity_matches p_activity_name) (activities (database s))
      = Some v_activity
    /\ visits (database s') = visits (database s) ++ [visit]
    /\ points_transactions (database s')
       = points_transactions (database s) ++ [entry]
    /\ dom (PointsTransaction.metadata entry) = metadata_fields
    /\ PointsTransaction.metadata entry !! "qr_code"
       = Some (JString p_code)
    /\ PointsTransaction.metadata entry !! "visit_id"
       = Some (JString (Visit.id visit))
    /\ PointsTransaction.metadata entry !! "activity_name"
       = Some (JString (Activity.name v_activity))
    /\ PointsTransaction.metadata entry !! "activity_id"
       = Some (JString (Activity.id v_activity)).
Proof.
  intros Hcall.
  destruct (call_ok_inv _ _ _ _ _ _ Hcall)
    as (v_activity & qr & _ & Hact & _ & _ & ->).
  destruct (entry_for_metadata session p_code v_activity qr)
    as (Hdom & Hcode & Hvisit & Hname & Hid & _).
  exists v_activity, (visit_for session qr),
    (entry_for session p_code v_activity qr).
  repeat split; assumption || reflexivity.
Qed.

(** C7. A call by an administrator with an active activity and an active,
    unexpired code, whose entry the ledger mutator accepts, returns, and
    it has then created exactly one Visit row, owned by the user resolved
    from the QR code, and made exactly one ledger entry, for that user, of
    the resolved Activity's points, of kind ["earn"], with the note
    ["Points earned from "] followed by the activity's name; the other
    tables are as before. Every call that returns has done exactly this,
    and a call that raises leaves the database as it was. *)
Theorem accept_visit_side_effects session p_code p_activity_name s :
  (forall v_activity qr,
      is_admin session = true ->
      find (activity_matches p_activity_name) (activities (database s))
        = Some v_activity ->
      find (qr_code_matches p_code (now session)) (qr_codes (database s))
        = Some qr ->
      ledger_error (points_transactions (database s))
                   (entry_for session p_code v_activity qr) = None ->
      exists visit entry s',
        call_accept_visit ledger_error session p_code p_activity_name s
        = Ok tt s'
        /\ Visit.user_id visit = QRCode.user_id qr
        /\ PointsTransaction.user_id entry = QRCode.user_id qr
        /\ PointsTransaction.amount entry = Activity.points v_activity
        /\ PointsTransaction.kind entry = "earn"
        /\ PointsTransaction.note entry
           = "Points earned from " +:+ Activity.name v_activity
        /\ activities (database s') = activities (database s)
        /\ qr_codes (database s') = qr_codes (database s)
        /\ visits (database s') = visits (database s) ++ [visit]
        /\ points_transactions (database s')
           = points_transactions (database s) ++ [entry]
        /\ server_log s' = server_log s)
  /\ match call_accept_visit ledger_error session p_code p_activity_name s
     with
     | Ok _ s' =>
         exists v_activity qr visit entry,
           find (activity_matches p_activity_name)
                (activities (database s)) = Some v_activity
           /\ find (qr_code_matches p_code (now session))
                   (qr_codes (database s)) = Some qr
           /\ Visit.user_id visit = QRCode.user_id qr
           /\ PointsTransaction.user_id entry = QRCode.user_id qr
           /\ PointsTransaction.amount entry = Activity.points v_activity
           /\ PointsTransaction.kind entry = "earn"
           /\ PointsTransaction.note entry
              = "Points earned from " +:+ Activity.name v_activity
           /\ activities (database s') = activities (database s)
           /\ qr_codes (database s') = qr_codes (database s)
           /\ visits (database s') = visits (database s) ++ [visit]
           /\ points_transactions (database s')
              = points_transactions (database s) ++ [entry]
           /\ server_log s' = server_log s
     | Raised _ s' => database s' = database s
     end.
Proof.
  split.
  - intros v_activity qr Hadmin Hact Hqr Hledger.
    exists (visit_for session qr),
      (entry_for session p_code v_activity qr).
    eexists. split.
    + exact (call_ok session p_code p_activity_name s v_activity qr
               Hadmin Hact Hqr Hledger).
    + repeat split.
  - destruct (call_accept_visit _ _ _ _ s) as [r s'|e s'] eqn:Hcall.
    + destruct (call_ok_inv _ _ _ _ _ _ Hcall)
        as (v_activity & qr & _ & Hact & Hqr & _ & ->).
      exists v_activity, qr, (visit_for session qr),
        (entry_for session p_code v_activity qr).
      repeat split; assumption.
    + destruct (call_raised_inv _ _ _ _ _ _ Hcall) as [dirty Hbody].
      rewrite (call_raised _ _ _ _ _ _ Hbody) in Hcall.
      injection Hcall as <-. reflexivity.
Qed.

(** C8, as amended. A failing call raises the very error its body
    raised, with the database restored; when [WHEN OTHERS] matches the
    error (every error but [query_canceled] and [assert_failure]) the
    handler has first written the error's message to the server log, and
    otherwise nothing is logged. No error is swallowed or replaced. *)
Theorem accept_visit_logs_then_reraises session p_code p_activity_name s :
  (forall e dirty,
      accept_visit_body ledger_error session
        p_code p_activity_name s = Raised e dirty ->
      call_accept_visit ledger_error session p_code p_activity_name s =
      Raised e
        {| database := database s;
           server_log :=
             server_log s ++
             (if when_others e
              then ["Error in accept_visit: " +:+ message e]
              else []) |})
  /\ (forall e s',
        call_accept_visit ledger_error session
          p_code p_activity_name s = Raised e s' ->
        exists dirty,
          accept_visit_body ledger_error session
            p_code p_activity_name s = Raised e dirty).
Proof.
  split.
  - intros e dirty Hbody. exact (call_raised _ _ _ _ _ _ Hbody).
  - intros e s' Hcall. exact (call_raised_inv _ _ _ _ _ _ Hcall).
Qed.

(** A code found at one time is the code found at any later time before
    its expiry. *)
Lemma find_qr_code_later p_code t t' (l : list QRCode.row) qr :
  find (qr_code_matches p_code t) l = Some qr ->
  t <= t' < QRCode.expires_at qr ->
  find (qr_code_matches p_code t') l = Some qr.
Proof.
  intros Hfind Ht.
  induction l as [|q l IH]; simpl in *; [discriminate|].
  destruct (qr_code_matches p_code t q) eqn:Hq.
  - injection Hfind as ->.
    apply qr_code_matches_true in Hq as (Hcode & Hactive & _).
    assert (qr_code_matches p_code t' qr = true) as ->
      by (apply qr_code_matches_true; repeat split; [assumption..|lia]).
    reflexivity.
  - destruct (qr_code_matches p_code t' q) eqn:Hq'; [|exact (IH Hfind)].
    apply qr_code_matches_true in Hq' as (Hcode & Hactive & Hlt).
    assert (qr_code_matches p_code t q = true)
      by (apply qr_code_matches_true; repeat split; [assumption..|lia]).
    congruence.
Qed.

(** No path through the body touches [qr_codes] or [activities]. *)
Lemma body_run_frame session p_code p_activity_name s o :
  body_run ledger_error session p_code p_activity_name s o ->
  qr_codes (database (final_state o)) = qr_codes (database s)
  /\ activities (database (final_state o)) = activities (database s).
Proof. intros H; inversion H; split; reflexivity. Qed.

(** C6. No execution path of [accept_visit] changes a QRCode row, neither
    in the state a call ends in nor in the state its body reaches before
    any rollback. After a successful call the redeemed code is still in
    the table with [is_active = true], and a second call by an
    administrator with the same code and activity, made before the code
    expires and accepted by the ledger, succeeds as well: it adds a
    second Visit row and a second ledger entry of the activity's
    points. *)
Theorem accept_visit_keeps_qr_codes :
  (forall session p_code p_activity_name s,
      qr_codes
        (database
           (final_state
              (call_accept_visit ledger_error session
                 p_code p_activity_name s)))
      = qr_codes (database s)
      /\ qr_codes
           (database
              (final_state
                 (accept_visit_body ledger_error session
                    p_code p_activity_name s)))
         = qr_codes (database s))
  /\ (forall session session2 p_code p_activity_name s s1 v_activity qr,
        call_accept_visit ledger_error session
          p_code p_activity_name s = Ok tt s1 ->
        find (activity_matches p_activity_name) (activities (database s))
          = Some v_activity ->
        find (qr_code_matches p_code (now session)) (qr_codes (database s))
          = Some qr ->
        is_admin session2 = true ->
        now session <= now session2 < QRCode.expires_at qr ->
        ledger_error (points_transactions (database s1))
                     (entry_for session2 p_code v_activity qr) = None ->
        In qr (qr_codes (database s1))
        /\ QRCode.is_active qr = true
        /\ exists s2,
            call_accept_visit ledger_error session2
              p_code p_activity_name s1 = Ok tt s2
            /\ qr_codes (database s2) = qr_codes (database s)
            /\ visits (database s2)
               = visits (database s)
                 ++ [visit_for session qr; visit_for session2 qr]
            /\ points_transactions (database s2)
               = points_transactions (database s)
                 ++ [entry_for session p_code v_activity qr;
                     entry_for session2 p_code v_activity qr]
            /\ PointsTransaction.amount
                 (entry_for session2 p_code v_activity qr)
               = Activity.points v_activity).
Proof.
  split.
  - intros session p_code p_activity_name s.
    pose proof (body_run_frame _ _ _ _ _
                  (accept_visit_body_run session p_code p_activity_name s))
      as [Hqr _].
    split; [|exact Hqr].
    rewrite call_unfold.
    destruct (accept_visit_body _ _ _ _ s) as [r s'|e s'];
      [exact Hqr | reflexivity].
  - intros session session2 p_code p_activity_name s s1 v_activity qr
      Hcall Hact Hqr Hadmin2 Htime Hledger2.
    destruct (call_ok_inv _ _ _ _ _ _ Hcall)
      as (a & q & _ & Hact' & Hqr' & _ & ->).
    assert (a = v_activity) by congruence.
    assert (q = qr) by congruence. subst a q.
    destruct (find_some _ _ Hqr) as [Hin Hmatch].
    apply qr_code_matches_true in Hmatch as (_ & Hactive & _).
    split; [exact Hin|]. split; [exact Hactive|].
    eexists. split.
    + apply (call_ok session2 p_code p_activity_name _ v_activity qr).
      * exact Hadmin2.
      * exact Hact.
      * exact (find_qr_code_later _ _ _ _ _ Hqr Htime).
      * exact Hledger2.
    + simpl. rewrite <- !app_assoc. repeat split; reflexivity.
Qed.

End AcceptVisitProperties.

(* ===================================================================== *)
(** ** The properties at the sample data *)
(* ===================================================================== *)

Lemma accept_visit_atomic_witness :
  call_accept_visit Sample.refusing Sample.admin "QR-1" "gym" Sample.state
  = Raised Sample.refusal
      {| database := Sample.db;
         server_log := ["Error in accept_visit: Invalid transaction"] |}
  /\ (exists dirty,
        accept_visit_body Sample.refusing Sample.admin "QR-1" "gym"
                          Sample.state = Raised Sample.refusal dirty
        /\ visits (database dirty)
           = [visit_for Sample.admin Sample.fresh_code])
  /\ database
       {| database := Sample.db;
          server_log := ["Error in accept_visit: Invalid transaction"] |}
     = database Sample.state.
Proof.
  assert (call_accept_visit Sample.refusing Sample.admin "QR-1" "gym"
                            Sample.state
          = Raised Sample.refusal
              {| database := Sample.db;
                 server_log :=
                   ["Error in accept_visit: Invalid transaction"] |})
    as Hcall by (vm_compute; reflexivity).
  split; [exact Hcall|]. split.
  - apply (ledger_error_after_insert Sample.refusing Sample.admin
             "QR-1" "gym" Sample.state Sample.gym Sample.fresh_code);
      reflexivity.
  - exact (proj1 (accept_visit_atomic _ _ _ _ _ _ _ Hcall)).
Defined.

Lemma accept_visit_unauthorized_witness :
  is_admin Sample.customer = false
  /\ exists s',
      call_accept_visit Sample.accepting Sample.customer "QR-1" "gym"
                        Sample.state = Raised Unauthorized s'
      /\ database s' = database Sample.state
      /\ visits (database s') = visits (database Sample.state)
      /\ points_transactions (database s')
         = points_transactions (database Sample.state).
Proof.
  split; [reflexivity|].
  apply (accept_visit_unauthorized Sample.accepting Sample.customer
           "QR-1" "gym" Sample.state).
  reflexivity.
Defined.

Lemma accept_visit_invalid_activity_witness :
  exists s',
    call_accept_visit Sample.accepting Sample.admin "QR-1" "yoga"
                      Sample.state = Raised InvalidActivity s'
    /\ database s' = database Sample.state.
Proof.
  apply (accept_visit_invalid_activity Sample.accepting Sample.admin
           "QR-1" "yoga" Sample.state).
  - reflexivity.
  - simpl. intros a [<-|[<-|[]]] Hname Hactive; discriminate.
Defined.

Lemma accept_visit_invalid_code_witness :
  exists s',
    call_accept_visit Sample.accepting Sample.admin "QR-2" "gym"
                      Sample.state = Raised InvalidOrExpiredCode s'
    /\ database s' = database Sample.state.
Proof.
  apply (accept_visit_invalid_code Sample.accepting Sample.admin
           "QR-2" "gym" Sample.state).
  - reflexivity.
  - exists Sample.gym. simpl. repeat split. right. left. reflexivity.
  - simpl. intros q [<-|[<-|[]]] Hcode Hactive;
      [simpl; lia | discriminate].
Defined.

Lemma accept_visit_check_order_witness :
  first_violated_check Sample.admin "QR-2" "yoga" Sample.db
  = Some InvalidActivity
  /\ exists s',
      call_accept_visit Sample.accepting Sample.admin "QR-2" "yoga"
                        Sample.state = Raised InvalidActivity s'.
Proof.
  split; [reflexivity|].
  apply (proj1 (accept_visit_check_order Sample.accepting Sample.admin
                  "QR-2" "yoga" Sample.state)).
  reflexivity.
Defined.

Lemma sample_first_call :
  call_accept_visit Sample.accepting Sample.admin "QR-1" "gym" Sample.state
  = Ok tt Sample.state_after_first.
Proof. vm_compute. reflexivity. Qed.

Lemma accept_visit_metadata_witness :
  exists v_activity visit entry,
    find (activity_matches "gym") (activities (database Sample.state))
      = Some v_activity
    /\ visits (database Sample.state_after_first)
       = visits (database Sample.state) ++ [visit]
    /\ points_transactions (database Sample.state_after_first)
       = points_transactions (database Sample.state) ++ [entry]
    /\ dom (PointsTransaction.metadata entry) = metadata_fields
    /\ PointsTransaction.metadata entry !! "qr_code"
       = Some (JString "QR-1")
    /\ PointsTransaction.metadata entry !! "visit_id"
       = Some (JString (Visit.id visit))
    /\ PointsTransaction.metadata entry !! "activity_name"
       = Some (JString (Activity.name v_activity))
    /\ PointsTransaction.metadata entry !! "activity_id"
       = Some (JString (Activity.id v_activity)).
Proof.
  exact (accept_visit_metadata Sample.accepting Sample.admin "QR-1" "gym"
           Sample.state tt Sample.state_after_first sample_first_call).
Defined.

(** C2, as stated, fails: in the administrator's successful call with code
    ["QR-1"] and activity ["gym"], the one ledger entry's metadata has no
    field [code], so its fields are not the four the specification
    lists. *)
Lemma metadata_has_no_code_field :
  call_accept_visit Sample.accepting Sample.admin "QR-1" "gym" Sample.state
  = Ok tt Sample.state_after_first
  /\ points_transactions (database Sample.state_after_first)
     = [Sample.first_entry]
  /\ PointsTransaction.metadata Sample.first_entry !! "code" = None
  /\ dom (PointsTransaction.metadata Sample.first_entry)
     <> spec_metadata_fields.
Proof.
  split; [exact sample_first_call|].
  split; [reflexivity|].
  assert (PointsTransaction.metadata Sample.first_entry !! "code" = None)
    as Hnone by (vm_compute; reflexivity).
  split; [exact Hnone|].
  intros Hdom.
  assert ("code" ∈ dom (PointsTransaction.metadata Sample.first_entry))
    as Hin by (rewrite Hdom; unfold spec_metadata_fields; set_solver).
  apply elem_of_dom in Hin as [v Hv]. congruence.
Qed.

Lemma accept_visit_side_effects_witness :
  exists visit entry s',
    call_accept_visit Sample.accepting Sample.admin "QR-1" "gym"
                      Sample.state = Ok tt s'
    /\ Visit.user_id visit = QRCode.user_id Sample.fresh_code
    /\ PointsTransaction.user_id entry = QRCode.user_id Sample.fresh_code
    /\ PointsTransaction.amount entry = Activity.points Sample.gym
    /\ PointsTransaction.kind entry = "earn"
    /\ PointsTransaction.note entry
       = "Points earned from " +:+ Activity.name Sample.gym
    /\ activities (database s') = activities (database Sample.state)
    /\ qr_codes (database s') = qr_codes (database Sample.state)
    /\ visits (database s') = visits (database Sample.state) ++ [visit]
    /\ points_transactions (database s')
       = points_transactions (database Sample.state) ++ [entry]
    /\ server_log s' = server_log Sample.state.
Proof.
  apply (proj1 (accept_visit_side_effects Sample.accepting Sample.admin
                  "QR-1" "gym" Sample.state)
           Sample.gym Sample.fresh_code);
    reflexivity.
Defined.

Lemma accept_visit_keeps_qr_codes_witness :
  In Sample.fresh_code (qr_codes (database Sample.state_after_first))
  /\ QRCode.is_active Sample.fresh_code = true
  /\ exists s2,
      call_accept_visit Sample.accepting Sample.admin_again "QR-1" "gym"
                        Sample.state_after_first = Ok tt s2
      /\ qr_codes (database s2) = qr_codes (database Sample.state)
      /\ visits (database s2)
         = visits (database Sample.state)
           ++ [visit_for Sample.admin Sample.fresh_code;
               visit_for Sample.admin_again Sample.fresh_code]
      /\ points_transactions (database s2)
         = points_transactions (database Sample.state)
           ++ [entry_for Sample.admin "QR-1" Sample.gym Sample.fresh_code;
               entry_for Sample.admin_again "QR-1" Sample.gym
                         Sample.fresh_code]
      /\ PointsTransaction.amount
           (entry_for Sample.admin_again "QR-1" Sample.gym
                      Sample.fresh_code)
         = Activity.points Sample.gym.
Proof.
  apply (proj2 (accept_visit_keeps_qr_codes Sample.accepting)
           Sample.admin Sample.admin_again "QR-1" "gym" Sample.state
           Sample.state_after_first Sample.gym Sample.fresh_code).
  - exact sample_first_call.
  - reflexivity.
  - reflexivity.
  - reflexivity.
  - simpl. lia.
  - reflexivity.
Defined.

Lemma accept_visit_logs_then_reraises_witness :
  call_accept_visit Sample.refusing Sample.admin "QR-1" "gym" Sample.state
  = Raised Sample.refusal
      {| database := Sample.db;
         server_log := ["Error in accept_visit: Invalid transaction"] |}
  /\ exists dirty,
      accept_visit_body Sample.refusing Sample.admin "QR-1" "gym"
                        Sample.state = Raised Sample.refusal dirty.
Proof.
  destruct (accept_visit_logs_then_reraises Sample.refusing Sample.admin
              "QR-1" "gym" Sample.state) as [Hlog Hinv].
  assert (accept_visit_body Sample.refusing Sample.admin "QR-1" "gym"
                            Sample.state
          = Raised Sample.refusal
              (set_database
                 (insert_into_visits
                    (visit_for Sample.admin Sample.fresh_code) Sample.db)
                 Sample.state))
    as Hbody by (vm_compute; reflexivity).
  pose proof (Hlog _ _ Hbody) as Hcall.
  split; [exact Hcall|].
  exact (Hinv _ _ Hcall).
Defined.

(** C8, as stated, fails: when the ledger mutator's statement is cancelled
    by the statement timeout, the call fails with that error and nothing
    has been written to the server log. *)
Lemma canceled_call_is_not_logged :
  exists s',
    call_accept_visit Sample.timing_out Sample.admin "QR-1" "gym"
                      Sample.state = Raised Sample.timeout s'
    /\ when_others Sample.timeout = false
    /\ server_log s' = server_log Sample.state
    /\ ~ In ("Error in accept_visit: " +:+ message Sample.timeout)
            (server_log s').
Proof.
  exists Sample.state.
  split; [vm_compute; reflexivity|].
  split; [reflexivity|].
  split; [reflexivity|].
  simpl. tauto.
Qed.

(* ===================================================================== *)
(** ** Properties of the dashboard screen *)
(* ===================================================================== *)

Section DashboardProperties.

Variables AdminStats ReviewStats : Type.

Abbreviation Api := (Dashboard.Api AdminStats ReviewStats).
Abbreviation Screen := (Dashboard.Screen AdminStats ReviewStats).

(** [loadData] created by a render whose [isAdmin] was [false] clears
    both statistics, whatever the backend would answer. *)
Lemma loadData_not_admin (api : Api) (s : Screen) :
  Dashboard.loadData AdminStats ReviewStats false api s =
  {| Dashboard.stats := None;
     Dashboard.reviewStats := None;
     Dashboard.loading := false;
     Dashboard.error := None;
     Dashboard.isAdmin := Dashboard.isAdmin s |}.
Proof. reflexivity. Qed.

(** [loadData] created by a render whose [isAdmin] was [true] stores
    what the two backend calls answered. *)
Lemma loadData_admin (api : Api) (s : Screen) :
  Dashboard.loadData AdminStats ReviewStats true api s =
  {| Dashboard.stats :=
       Dashboard.catch_null (Dashboard.getAdminStats api);
     Dashboard.reviewStats :=
       Dashboard.catch_null (Dashboard.getReviewStats api);
     Dashboard.loading := false;
     Dashboard.error := None;
     Dashboard.isAdmin := Dashboard.isAdmin s |}.
Proof. reflexivity. Qed.

Lemma checkUserAdmin_isAdmin (api : Api) (s : Screen) :
  Dashboard.isAdmin (Dashboard.checkUserAdmin AdminStats ReviewStats api s)
  = match Dashboard.checkAdminStatus api with
    | Dashboard.Resolved adminStatus => adminStatus
    | Dashboard.Rejected _ => false
    end.
Proof.
  unfold Dashboard.checkUserAdmin.
  destruct (Dashboard.checkAdminStatus api); reflexivity.
Qed.

(** C10. On mount, the data load that follows the admin-status check is
    the [loadData] of the first render, whose [isAdmin] is [false]: for
    every backend, an administrator's included, the first load sets the
    admin statistics and the review statistics to null, while the
    [isAdmin] cell itself holds the answer of the check. Once [loadData]
    runs again from a later render (refresh, or a submitted review), an
    administrator gets both statistics from the backend. *)
Theorem first_load_uses_first_render_flag (api : Api) :
  Dashboard.isAdmin (Dashboard.first_render AdminStats ReviewStats) = false
  /\ Dashboard.mount api
     = Dashboard.loadData AdminStats ReviewStats false api
         (Dashboard.checkUserAdmin AdminStats ReviewStats api
            (Dashboard.first_render AdminStats ReviewStats))
  /\ Dashboard.stats (Dashboard.mount api) = None
  /\ Dashboard.reviewStats (Dashboard.mount api) = None
  /\ Dashboard.loading (Dashboard.mount api) = false
  /\ Dashboard.isAdmin (Dashboard.mount api)
     = match Dashboard.checkAdminStatus api with
       | Dashboard.Resolved adminStatus => adminStatus
       | Dashboard.Rejected _ => false
       end
  /\ (forall api' : Api,
        Dashboard.checkAdminStatus api = Dashboard.Resolved true ->
        Dashboard.stats (Dashboard.refresh api' (Dashboard.mount api))
        = Dashboard.catch_null (Dashboard.getAdminStats api')
        /\ Dashboard.reviewStats
             (Dashboard.refresh api' (Dashboard.mount api))
           = Dashboard.catch_null (Dashboard.getReviewStats api')).
Proof.
  assert (Dashboard.isAdmin (Dashboard.mount api)
          = match Dashboard.checkAdminStatus api with
            | Dashboard.Resolved adminStatus => adminStatus
            | Dashboard.Rejected _ => false
            end) as Hflag.
  { unfold Dashboard.mount, Dashboard.initializeData.
    change (Dashboard.isAdmin (Dashboard.first_render _ _)) with false.
    rewrite loadData_not_admin. simpl.
    apply checkUserAdmin_isAdmin. }
  split; [reflexivity|].
  split; [reflexivity|].
  split; [reflexivity|].
  split; [reflexivity|].
  split; [reflexivity|].
  split; [exact Hflag|].
  intros api' Hadmin.
  unfold Dashboard.refresh.
  rewrite Hflag, Hadmin, loadData_admin. split; reflexivity.
Qed.

End DashboardProperties.

Lemma first_load_uses_first_render_flag_witness :
  Dashboard.stats (Dashboard.mount Sample.admin_api) = None
  /\ Dashboard.reviewStats (Dashboard.mount Sample.admin_api) = None
  /\ Dashboard.isAdmin (Dashboard.mount Sample.admin_api) = true
  /\ Dashboard.stats
       (Dashboard.refresh Sample.admin_api
          (Dashboard.mount Sample.admin_api)) = Some 7%nat
  /\ Dashboard.reviewStats
       (Dashboard.refresh Sample.admin_api
          (Dashboard.mount Sample.admin_api)) = Some 3%nat.
Proof.
  destruct (first_load_uses_first_render_flag nat nat Sample.admin_api)
    as (_ & _ & Hstats & Hreview & _ & Hflag & Hrefresh).
  destruct (Hrefresh Sample.admin_api eq_refl) as [Hs Hr].
  repeat split; assumption.
Defined.

(* ===================================================================== *)
(** ** Properties of sequences of calls *)
(* ===================================================================== *)

Section CallProperties.

Variable ledger_error :
  list PointsTransaction.row -> PointsTransaction.row -> option exception.

(** A call changes the tables by exactly the rows of [rows_written], and
    returns exactly when there are such rows. *)
Lemma perform_rows s c :
  database (perform ledger_error s c)
  = match rows_written ledger_error c (database s) with
    | Some (v, e) =>
        insert_into_points_transactions e
          (insert_into_visits v (database s))
    | None => database s
    end
  /\ returns ledger_error s c
     = match rows_written ledger_error c (database s) with
       | Some _ => true
       | None => false
       end.
Proof.
  unfold perform, returns, rows_written.
  destruct c as [session p_code p_activity_name]; simpl.
  destruct (is_admin session) eqn:Hadmin.
  2: { rewrite (call_raised _ _ _ _ _ _ _
                  (body_unauthorized ledger_error session p_code
                     p_activity_name s Hadmin)).
       split; reflexivity. }
  destruct (find (activity_matches p_activity_name) _)
    as [v_activity|] eqn:Hact.
  2: { rewrite (call_raised _ _ _ _ _ _ _
                  (body_invalid_activity ledger_error session p_code
                     p_activity_name s Hadmin Hact)).
       split; reflexivity. }
  destruct (find (qr_code_matches p_code (now session)) _)
    as [qr|] eqn:Hqr.
  2: { rewrite (call_raised _ _ _ _ _ _ _
                  (body_invalid_code ledger_error session p_code
                     p_activity_name s v_activity Hadmin Hact Hqr)).
       split; reflexivity. }
  destruct (ledger_error _ _) as [e|] eqn:Hledger.
  - destruct (ledger_error_after_insert ledger_error session p_code
                p_activity_name s v_activity qr e Hadmin Hact Hqr Hledger)
      as (dirty & Hbody & _).
    rewrite (call_raised _ _ _ _ _ _ _ Hbody). split; reflexivity.
  - rewrite (call_ok ledger_error session p_code p_activity_name s
               v_activity qr Hadmin Hact Hqr Hledger).
    split; reflexivity.
Qed.

(** The rows of one call belong together. *)
Lemma rows_written_links c db v e :
  rows_written ledger_error c db = Some (v, e) -> links_back v e.
Proof.
  unfold rows_written.
  destruct (is_admin (caller c)); [|discriminate].
  destruct (find (activity_matches _) _) as [v_activity|]; [|discriminate].
  destruct (find (qr_code_matches _ _) _) as [qr|]; [|discriminate].
  destruct (ledger_error _ _); [discriminate|].
  intros [= <- <-].
  destruct (entry_for_metadata (caller c) (call_code c) v_activity qr)
    as (_ & _ & Hvisit & _).
  split; [reflexivity|]. split; [reflexivity|]. exact Hvisit.
Qed.

(** What a call adds to the server log: nothing when it returns, at most
    the handler's line for the error when it raises. *)
Lemma perform_log s c :
  exists lines,
    server_log (perform ledger_error s c) = server_log s ++ lines
    /\ (returns ledger_error s c = true -> lines = [])
    /\ (lines = [] \/ exists e, lines = [log_line e]).
Proof.
  unfold perform, returns.
  destruct (call_accept_visit ledger_error _ _ _ s) as [r s'|e s']
    eqn:Hcall.
  - destruct (call_ok_inv _ _ _ _ _ _ _ Hcall)
      as (a & q & _ & _ & _ & _ & ->).
    exists []. simpl. rewrite app_nil_r. auto.
  - destruct (call_raised_inv _ _ _ _ _ _ _ Hcall) as [dirty Hbody].
    rewrite (call_raised _ _ _ _ _ _ _ Hbody) in Hcall.
    injection Hcall as <-. simpl.
    exists (if when_others e then [log_line e] else []).
    split; [reflexivity|]. split; [discriminate|].
    destruct (when_others e); [right; exists e; reflexivity | left; tauto].
Qed.

(** The tables after a sequence of calls: the two lookup tables as they
    were, and as many new visits as new entries as returned calls, paired
    in order. *)
Lemma perform_all_tables cs :
  forall s,
    activities (database (perform_all ledger_error cs s))
    = activities (database s)
    /\ qr_codes (database (perform_all ledger_error cs s))
       = qr_codes (database s)
    /\ exists vs es,
        visits (database (perform_all ledger_error cs s))
        = visits (database s) ++ vs
        /\ points_transactions (database (perform_all ledger_error cs s))
           = points_transactions (database s) ++ es
        /\ Forall2 links_back vs es
        /\ length vs = returned ledger_error cs s.
Proof.
  induction cs as [|c cs IH]; intros s; simpl.
  - repeat split. exists [], []. rewrite !app_nil_r.
    repeat split. constructor.
  - destruct (IH (perform ledger_error s c))
      as (Hact & Hqr & vs & es & Hvs & Hes & Hlinks & Hlen).
    destruct (perform_rows s c) as [Hdb Hret].
    unfold perform_all in *. simpl.
    rewrite Hact, Hqr, Hvs, Hes, Hret, Hdb.
    destruct (rows_written ledger_error c (database s)) as [[v e]|]
      eqn:Hrows; simpl.
    + split; [reflexivity|]. split; [reflexivity|].
      exists (v :: vs), (e :: es).
      rewrite <- !app_assoc. simpl. rewrite Hlen.
      split; [reflexivity|]. split; [reflexivity|].
      split; [|reflexivity].
      constructor; [exact (rows_written_links _ _ _ _ Hrows) | exact Hlinks].
    + split; [reflexivity|]. split; [reflexivity|].
      exists vs, es.
      split; [reflexivity|]. split; [reflexivity|].
      split; [exact Hlinks | exact Hlen].
Qed.

(** X1. Whatever calls are made, by whomever and however they end, the
    tables [activities] and [qr_codes] are afterwards what they were. *)
Theorem calls_leave_lookup_tables cs s :
  activities (database (perform_all ledger_error cs s))
  = activities (database s)
  /\ qr_codes (database (perform_all ledger_error cs s))
     = qr_codes (database s).
Proof.
  destruct (perform_all_tables cs s) as (Hact & Hqr & _).
  split; assumption.
Qed.

(** X2. After any sequence of calls the rows that were in [visits] and in
    the ledger are still there, in place, followed by the new ones; there
    is one new Visit and one new ledger entry for each call that
    returned, and the new entries belong to the new visits one to one and
    in order: same user, kind ["earn"], the Visit's id in the
    metadata. *)
Theorem calls_pair_visits_with_entries cs s :
  exists new_visits new_entries,
    visits (database (perform_all ledger_error cs s))
    = visits (database s) ++ new_visits
    /\ points_transactions (database (perform_all ledger_error cs s))
       = points_transactions (database s) ++ new_entries
    /\ Forall2 links_back new_visits new_entries
    /\ length new_visits = returned ledger_error cs s
    /\ length new_entries = returned ledger_error cs s.
Proof.
  destruct (perform_all_tables cs s)
    as (_ & _ & vs & es & Hvs & Hes & Hlinks & Hlen).
  exists vs, es. repeat split; try assumption.
  rewrite <- Hlen. symmetry. exact (Forall2_length _ _ _ Hlinks).
Qed.

(** X3. Calls by callers who are not administrators, however many and
    whatever their arguments, leave the database as it was; each one adds
    the line for [Unauthorized] to the server log. *)
Theorem unauthorized_calls_change_nothing cs s :
  Forall (fun c => is_admin (caller c) = false) cs ->
  database (perform_all ledger_error cs s) = database s
  /\ server_log (perform_all ledger_error cs s)
     = server_log s
       ++ repeat "Error in accept_visit: Unauthorized: Admin access required"
                 (length cs).
Proof.
  intros Hall. revert s.
  induction Hall as [|c cs Hc _ IH]; intros s; simpl.
  - rewrite app_nil_r. split; reflexivity.
  - unfold perform_all in *. simpl.
    destruct (IH (perform ledger_error s c)) as [Hdb Hlog].
    rewrite Hdb, Hlog. unfold perform.
    rewrite (call_raised _ _ _ _ _ _ _
               (body_unauthorized ledger_error (caller c) (call_code c)
                  (call_activity_name c) s Hc)).
    simpl. rewrite <- app_assoc. split; reflexivity.
Qed.

(** X4. The server log only grows, and only by lines of the handler: after
    any sequence of calls it is the old log followed by lines of the form
    ["Error in accept_visit: "] plus an error's message, at most one for
    each call that raised and none for a call that returned. *)
Theorem calls_only_append_error_lines cs s :
  exists lines,
    server_log (perform_all ledger_error cs s) = server_log s ++ lines
    /\ Forall (fun line =>
                 exists e, line = "Error in accept_visit: " +:+ message e)
              lines
    /\ (length lines + returned ledger_error cs s <= length cs)%nat.
Proof.
  revert s. induction cs as [|c cs IH]; intros s; simpl.
  - exists []. rewrite app_nil_r.
    split; [reflexivity|]. split; [apply List.Forall_nil | simpl; lia].
  - unfold perform_all in *. simpl.
    destruct (IH (perform ledger_error s c)) as (rest & Hlog & Hform & Hlen).
    destruct (perform_log s c) as (lines & Hstep & Hret & Hshape).
    exists (lines ++ rest).
    rewrite Hlog, Hstep, <- app_assoc. split; [reflexivity|].
    split.
    + apply Forall_app. split; [|exact Hform].
      destruct Hshape as [->|[e ->]]; [apply List.Forall_nil|].
      apply List.Forall_cons; [exists e; reflexivity | apply List.Forall_nil].
    + rewrite length_app.
      destruct (returns ledger_error s c).
      * rewrite (Hret eq_refl). simpl. lia.
      * destruct Hshape as [->|[e ->]]; simpl; lia.
Qed.

End CallProperties.

Section SingleCallProperties.

Variable ledger_error :
  list PointsTransaction.row -> PointsTransaction.row -> option exception.

(** X5. When none of the three checks is violated, the two lookups have
    found their rows and the ledger mutator alone decides the call: if it
    accepts the entry the call returns, with the Visit and the entry
    added and nothing logged; if it raises, the call raises that error
    with the database unchanged. *)
Theorem checks_passed_ledger_decides session p_code p_activity_name s :
  first_violated_check session p_code p_activity_name (database s) = None ->
  exists v_activity qr,
    find (activity_matches p_activity_name) (activities (database s))
      = Some v_activity
    /\ find (qr_code_matches p_code (now session)) (qr_codes (database s))
       = Some qr
    /\ call_accept_visit ledger_error session p_code p_activity_name s
       = match ledger_error (points_transactions (database s))
                            (entry_for session p_code v_activity qr) with
         | None =>
             Ok tt
               (set_database
                  (insert_into_points_transactions
                     (entry_for session p_code v_activity qr)
                     (insert_into_visits (visit_for session qr)
                                         (database s)))
                  s)
         | Some e =>
             Raised e
               {| database := database s;
                  server_log :=
                    server_log s ++
                    (if when_others e
                     then ["Error in accept_visit: " +:+ message e]
                     else []) |}
         end.
Proof.
  unfold first_violated_check. rewrite !find_existsb.
  destruct (is_admin session) eqn:Hadmin; simpl; [|discriminate].
  destruct (find (activity_matches p_activity_name) _)
    as [v_activity|] eqn:Hact; simpl; [|discriminate].
  destruct (find (qr_code_matches p_code (now session)) _)
    as [qr|] eqn:Hqr; simpl; [|discriminate].
  intros _. exists v_activity, qr.
  split; [reflexivity|]. split; [reflexivity|].
  destruct (ledger_error _ _) as [e|] eqn:Hledger.
  - destruct (ledger_error_after_insert ledger_error session p_code
                p_activity_name s v_activity qr e Hadmin Hact Hqr Hledger)
      as (dirty & Hbody & _).
    exact (call_raised _ _ _ _ _ _ _ Hbody).
  - exact (call_ok ledger_error session p_code p_activity_name s
             v_activity qr Hadmin Hact Hqr Hledger).
Qed.

(** X6. A call that fails one of the three checks ends in exactly this
    state: the database as before, and the server log one line longer,
    the line being ["Error in accept_visit: "] followed by the message of
    the error raised. The procedure's own errors are always logged. *)
Theorem violated_check_is_logged session p_code p_activity_name s e :
  first_violated_check session p_code p_activity_name (database s)
    = Some e ->
  call_accept_visit ledger_error session p_code p_activity_name s
  = Raised e
      {| database := database s;
         server_log :=
           server_log s ++ ["Error in accept_visit: " +:+ message e] |}.
Proof.
  unfold first_violated_check. rewrite !find_existsb.
  destruct (is_admin session) eqn:Hadmin; simpl.
  2: { intros [= <-].
       exact (call_raised _ _ _ _ _ _ _
                (body_unauthorized ledger_error session p_code
                   p_activity_name s Hadmin)). }
  destruct (find (activity_matches p_activity_name) _)
    as [v_activity|] eqn:Hact; simpl.
  2: { intros [= <-].
       exact (call_raised _ _ _ _ _ _ _
                (body_invalid_activity ledger_error session p_code
                   p_activity_name s Hadmin Hact)). }
  destruct (find (qr_code_matches p_code (now session)) _)
    as [qr|] eqn:Hqr; simpl; [discriminate|].
  intros [= <-].
  exact (call_raised _ _ _ _ _ _ _
           (body_invalid_code ledger_error session p_code
              p_activity_name s v_activity Hadmin Hact Hqr)).
Qed.

(** X7. A call raises only for one of two reasons: a violated check, and
    then the error is that check's; or, all checks passed, an error of the
    ledger mutator for the entry of this call, passed on as it is. *)
Theorem accept_visit_error_origin session p_code p_activity_name s e s' :
  call_accept_visit ledger_error session p_code p_activity_name s
  = Raised e s' ->
  first_violated_check session p_code p_activity_name (database s) = Some e
  \/ (first_violated_check session p_code p_activity_name (database s)
      = None
      /\ exists v_activity qr,
          find (activity_matches p_activity_name) (activities (database s))
            = Some v_activity
          /\ find (qr_code_matches p_code (now session))
                  (qr_codes (database s)) = Some qr
          /\ ledger_error (points_transactions (database s))
                          (entry_for session p_code v_activity qr)
             = Some e).
Proof.
  intros Hcall.
  destruct (call_raised_inv _ _ _ _ _ _ _ Hcall) as [dirty Hbody].
  clear Hcall.
  unfold first_violated_check. rewrite !find_existsb.
  pose proof (accept_visit_body_run ledger_error session p_code
                p_activity_name s) as Hrun.
  rewrite Hbody in Hrun.
  inversion Hrun
    as [Ha | Ha Hf | a Ha Hf Hq | a q e' Ha Hf Hq Hl Heq
        | a q Ha Hf Hq Hl Heq]; subst.
  - left. rewrite Ha. reflexivity.
  - left. rewrite Ha, Hf. reflexivity.
  - left. rewrite Ha, Hf, Hq. reflexivity.
  - right. rewrite Ha, Hf, Hq. split; [reflexivity|].
    exists a, q. repeat split; assumption.
Qed.

(** X8. An error that [WHEN OTHERS] does not match ([query_canceled],
    [assert_failure]) still undoes the block: for such an error of the
    ledger mutator, raised after the Visit row was inserted, the function
    by itself, before any abort of the calling transaction, ends in
    exactly the state it started in. The Visit is gone, the handler has
    not run and the server log is untouched. *)
Theorem untrapped_error_rolls_back_unlogged session p_code p_activity_name
    s v_activity qr e :
  is_admin session = true ->
  find (activity_matches p_activity_name) (activities (database s))
    = Some v_activity ->
  find (qr_code_matches p_code (now session)) (qr_codes (database s))
    = Some qr ->
  ledger_error (points_transactions (database s))
               (entry_for session p_code v_activity qr) = Some e ->
  when_others e = false ->
  accept_visit_body ledger_error session p_code p_activity_name s
  = Raised e
      (set_database
         (insert_into_visits (visit_for session qr) (database s)) s)
  /\ accept_visit ledger_error session p_code p_activity_name s
     = Raised e s
  /\ call_accept_visit ledger_error session p_code p_activity_name s
     = Raised e s.
Proof.
  intros Hadmin Hact Hqr Hledger Htrap.
  pose proof (accept_visit_body_run ledger_error session p_code
                p_activity_name s) as Hrun.
  inversion Hrun
    as [Ha | Ha Hf | a Ha Hf Hq | a q e' Ha Hf Hq Hl Heq
        | a q Ha Hf Hq Hl Heq];
    try congruence.
  assert (a = v_activity) by congruence.
  assert (q = qr) by congruence. subst a q.
  assert (e' = e) by congruence. subst e'.
  split; [reflexivity|].
  unfold call_accept_visit, transaction, accept_visit, begin_exception.
  rewrite <- Heq. cbv zeta. rewrite Htrap.
  destruct s; split; reflexivity.
Qed.

End SingleCallProperties.

Section Reordering.

Variable ledger_error :
  list PointsTransaction.row -> PointsTransaction.row -> option exception.

(** A ledger mutator that answers by what an entry awards alone, without
    regard to the entries already in the ledger or to the metadata. *)
Hypothesis ledger_reads_award :
  forall l l' e e', award e = award e' -> ledger_error l e = ledger_error l' e'.

(** The rows of a call depend on the database through the two lookup
    tables only. *)
Lemma rows_written_same_lookup c db db' :
  activities db = activities db' ->
  qr_codes db = qr_codes db' ->
  rows_written ledger_error c db = rows_written ledger_error c db'.
Proof.
  intros Hact Hqr. unfold rows_written. rewrite Hact, Hqr.
  destruct (is_admin (caller c)); [|reflexivity].
  destruct (find (activity_matches _) _) as [v_activity|]; [|reflexivity].
  destruct (find (qr_code_matches _ _) _) as [qr|]; [|reflexivity].
  rewrite (ledger_reads_award (points_transactions db)
             (points_transactions db') _ _ eq_refl).
  reflexivity.
Qed.

(** The rows a sequence of calls adds are the rows each call would write
    against the tables the sequence started with. *)
Lemma perform_all_rows cs :
  forall s db0,
    activities (database s) = activities db0 ->
    qr_codes (database s) = qr_codes db0 ->
    let rows := omap (fun c => rows_written ledger_error c db0) cs in
    visits (database (perform_all ledger_error cs s))
    = visits (database s) ++ map fst rows
    /\ points_transactions (database (perform_all ledger_error cs s))
       = points_transactions (database s) ++ map snd rows
    /\ returned ledger_error cs s = length rows.
Proof.
  induction cs as [|c cs IH]; intros s db0 Hact Hqr; simpl.
  - rewrite !app_nil_r. repeat split.
  - destruct (perform_rows ledger_error s c) as [Hdb Hret].
    rewrite (rows_written_same_lookup c (database s) db0 Hact Hqr)
      in Hdb, Hret.
    unfold perform_all in *. simpl. rewrite Hret.
    destruct (rows_written ledger_error c db0) as [[v e]|] eqn:Hrows.
    + destruct (IH (perform ledger_error s c) db0) as (Hvs & Hes & Hn).
      { rewrite Hdb. exact Hact. }
      { rewrite Hdb. exact Hqr. }
      simpl in *. rewrite Hvs, Hes, Hn, Hdb. simpl.
      rewrite <- !app_assoc. repeat split.
    + destruct (IH (perform ledger_error s c) db0) as (Hvs & Hes & Hn).
      { rewrite Hdb. exact Hact. }
      { rewrite Hdb. exact Hqr. }
      simpl in *. rewrite Hvs, Hes, Hn, Hdb. repeat split.
Qed.

Lemma omap_step {A B} (f : A -> option B) (x : A) (l : list A) :
  omap f (x :: l)
  = match f x with
    | Some y => y :: omap f l
    | None => omap f l
    end.
Proof. reflexivity. Qed.

Lemma find_same_answers {A} (f g : A -> bool) (l : list A) :
  (forall x, In x l -> f x = g x) -> find f l = find g l.
Proof.
  induction l as [|x l IH]; intros Hfg; simpl; [reflexivity|].
  rewrite <- (Hfg x (or_introl eq_refl)).
  destruct (f x); [reflexivity|].
  apply IH. intros y Hy. apply Hfg. right. exact Hy.
Qed.

(** Served at a moment at which the same codes are unexpired as at [t], a
    request writes rows for the same user and with the same award as it
    would at [t], or none in both cases. *)
Lemma rows_written_at_moment db t id r m :
  same_codes_valid db t m ->
  option_map summary (rows_written ledger_error (call_at r m) db)
  = option_map summary
      (rows_written ledger_error
         (call_at r {| clock := t; fresh_id := id |}) db).
Proof.
  intros Hvalid. unfold rows_written, call_at. simpl.
  destruct (by_admin r); [|reflexivity].
  destruct (find (activity_matches _) _) as [v_activity|]; [|reflexivity].
  rewrite (find_same_answers
             (qr_code_matches (request_code r) (clock m))
             (qr_code_matches (request_code r) t)).
  2: { intros q Hq. unfold qr_code_matches. rewrite (Hvalid q Hq).
       reflexivity. }
  destruct (find (qr_code_matches _ t) _) as [qr|]; [|reflexivity].
  rewrite (ledger_reads_award (points_transactions db)
             (points_transactions db)
             (entry_for {| is_admin := true; now := clock m;
                           gen_random_uuid := fresh_id m |}
                        (request_code r) v_activity qr)
             (entry_for {| is_admin := true; now := t;
                           gen_random_uuid := id |}
                        (request_code r) v_activity qr) eq_refl).
  destruct (ledger_error _ _); reflexivity.
Qed.

(** The users and awards of a schedule, request by request. *)
Lemma schedule_summary db t id rs :
  forall ms,
    length ms = length rs ->
    Forall (same_codes_valid db t) ms ->
    map summary
      (omap (fun c => rows_written ledger_error c db) (schedule rs ms))
    = omap (fun r =>
              option_map summary
                (rows_written ledger_error
                   (call_at r {| clock := t; fresh_id := id |}) db))
           rs.
Proof.
  induction rs as [|r rs IH]; intros [|m ms] Hlen Hvalid;
    try discriminate; [reflexivity|].
  inversion Hvalid as [|m' ms' Hm Hms]; subst.
  simpl in Hlen. injection Hlen as Hlen.
  cbn [schedule]. rewrite !omap_step.
  rewrite <- (rows_written_at_moment db t id r m Hm).
  destruct (rows_written ledger_error (call_at r m) db) as [rows|];
    simpl; rewrite (IH ms Hlen Hms); reflexivity.
Qed.

(** X9. With a ledger mutator that answers by what an entry awards alone,
    requests served while no code expires do not interfere: serving the
    same requests in another order, at the same moments, makes as many
    calls return, records visits for the same users and awards the same
    entries, up to their order in the tables. *)
Theorem reordered_requests_award_the_same rs rs' ms t s :
  Permutation rs rs' ->
  length ms = length rs ->
  Forall (same_codes_valid (database s) t) ms ->
  returned ledger_error (schedule rs ms) s
  = returned ledger_error (schedule rs' ms) s
  /\ Permutation
       (map Visit.user_id
          (visits
             (database (perform_all ledger_error (schedule rs ms) s))))
       (map Visit.user_id
          (visits
             (database (perform_all ledger_error (schedule rs' ms) s))))
  /\ Permutation
       (map award
          (points_transactions
             (database (perform_all ledger_error (schedule rs ms) s))))
       (map award
          (points_transactions
             (database (perform_all ledger_error (schedule rs' ms) s)))).
Proof.
  intros Hperm Hlen Hvalid.
  assert (length ms = length rs') as Hlen'
    by (rewrite Hlen; apply Permutation_length, Hperm).
  destruct (perform_all_rows (schedule rs ms) s (database s)
              eq_refl eq_refl) as (Hvs & Hes & Hn).
  destruct (perform_all_rows (schedule rs' ms) s (database s)
              eq_refl eq_refl) as (Hvs' & Hes' & Hn').
  cbv zeta in *.
  pose proof (schedule_summary (database s) t "" rs ms Hlen Hvalid)
    as Hsum.
  pose proof (schedule_summary (database s) t "" rs' ms Hlen' Hvalid)
    as Hsum'.
  set (rows := omap (fun c => rows_written ledger_error c (database s))
                    (schedule rs ms)) in *.
  set (rows' := omap (fun c => rows_written ledger_error c (database s))
                     (schedule rs' ms)) in *.
  assert (Permutation (map summary rows) (map summary rows')) as Hrows.
  { rewrite Hsum, Hsum'. apply omap_Permutation. exact Hperm. }
  assert (forall l : list (Visit.row * PointsTransaction.row),
             map Visit.user_id (map fst l) = map fst (map summary l))
    as Husers.
  { intros l. rewrite !map_map. apply map_ext. intros [v e]. reflexivity. }
  assert (forall l : list (Visit.row * PointsTransaction.row),
             map award (map snd l) = map snd (map summary l))
    as Hawards.
  { intros l. rewrite !map_map. apply map_ext. intros [v e]. reflexivity. }
  rewrite Hvs, Hes, Hn, Hvs', Hes', Hn', !map_app, !Husers, !Hawards.
  split; [|split].
  - rewrite <- (length_map summary rows), <- (length_map summary rows').
    apply Permutation_length, Hrows.
  - apply Permutation_app_head, Permutation_map, Hrows.
  - apply Permutation_app_head, Permutation_map, Hrows.
Qed.

End Reordering.

(* ===================================================================== *)
(** ** Properties of what the dashboard screen shows *)
(* ===================================================================== *)

Section ViewProperties.

Variable number : Type.
Variable zero : number.
Variable truthy : number -> bool.
Variable ReviewStats : Type.

Abbreviation AdminStats := (DashboardView.AdminStats number).
Abbreviation Api := (Dashboard.Api AdminStats ReviewStats).
Abbreviation Screen := (Dashboard.Screen AdminStats ReviewStats).
Abbreviation render := (DashboardView.render number zero truthy ReviewStats).
Abbreviation or_zero := (DashboardView.or_zero number zero truthy).

(** What [loadData] leaves in each cell, for either value of the flag its
    render captured. *)
Lemma loadData_cells (flag : bool) (api : Api) (s : Screen) :
  Dashboard.loadData AdminStats ReviewStats flag api s =
  {| Dashboard.stats :=
       if flag then Dashboard.catch_null (Dashboard.getAdminStats api)
       else None;
     Dashboard.reviewStats :=
       if flag then Dashboard.catch_null (Dashboard.getReviewStats api)
       else None;
     Dashboard.loading := false;
     Dashboard.error := None;
     Dashboard.isAdmin := Dashboard.isAdmin s |}.
Proof. destruct flag; reflexivity. Qed.

Lemma mount_cells (api0 : Api) :
  Dashboard.mount api0 =
  {| Dashboard.stats := None;
     Dashboard.reviewStats := None;
     Dashboard.loading := false;
     Dashboard.error := None;
     Dashboard.isAdmin :=
       match Dashboard.checkAdminStatus api0 with
       | Dashboard.Resolved adminStatus => adminStatus
       | Dashboard.Rejected _ => false
       end |}.
Proof.
  unfold Dashboard.mount, Dashboard.initializeData.
  change (Dashboard.isAdmin (Dashboard.first_render _ _)) with false.
  rewrite loadData_cells, checkUserAdmin_isAdmin. reflexivity.
Qed.

(** What one more load leaves in each cell. *)
Lemma refresh_cells (api : Api) (s : Screen) :
  Dashboard.refresh api s =
  {| Dashboard.stats :=
       if Dashboard.isAdmin s
       then Dashboard.catch_null (Dashboard.getAdminStats api)
       else None;
     Dashboard.reviewStats :=
       if Dashboard.isAdmin s
       then Dashboard.catch_null (Dashboard.getReviewStats api)
       else None;
     Dashboard.loading := false;
     Dashboard.error := None;
     Dashboard.isAdmin := Dashboard.isAdmin s |}.
Proof. unfold Dashboard.refresh. apply loadData_cells. Qed.

Abbreviation reloads :=
  (fold_left (fun (s : Screen) (api : Api) => Dashboard.refresh api s)).

(** Triggering [loadData] again never changes the [isAdmin] cell, nor
    leaves an error or the loading flag behind. *)
Lemma refreshes_keep_flag (apis : list Api) :
  forall s : Screen,
    Dashboard.loading s = false ->
    Dashboard.error s = None ->
    Dashboard.isAdmin (reloads apis s) = Dashboard.isAdmin s
    /\ Dashboard.loading (reloads apis s) = false
    /\ Dashboard.error (reloads apis s) = None.
Proof.
  induction apis as [|api apis IH]; intros s Hloading Herror;
    cbn [fold_left].
  - repeat split; assumption.
  - destruct (IH (Dashboard.refresh api s)) as (Hflag & Hl & He);
      [rewrite refresh_cells; reflexivity..|].
    split; [rewrite Hflag, refresh_cells; reflexivity|].
    split; assumption.
Qed.

(** The cells after the last of several loads. *)
Lemma last_refresh_cells (apis : list Api) (api : Api) (s : Screen) :
  Dashboard.loading s = false ->
  Dashboard.error s = None ->
  reloads (apis ++ [api]) s =
  {| Dashboard.stats :=
       if Dashboard.isAdmin s
       then Dashboard.catch_null (Dashboard.getAdminStats api)
       else None;
     Dashboard.reviewStats :=
       if Dashboard.isAdmin s
       then Dashboard.catch_null (Dashboard.getReviewStats api)
       else None;
     Dashboard.loading := false;
     Dashboard.error := None;
     Dashboard.isAdmin := Dashboard.isAdmin s |}.
Proof.
  intros Hloading Herror.
  rewrite fold_left_app. cbn [fold_left].
  destruct (refreshes_keep_flag apis s Hloading Herror) as (Hflag & _).
  rewrite refresh_cells, Hflag. reflexivity.
Qed.

(** X10. Whether the screen treats its user as an administrator is
    settled when it mounts: after any number of later loads the [isAdmin]
    cell still holds the answer of the one admin check made at mount,
    with a failed check counting as "not an administrator"; what the
    backend would answer later is never asked. *)
Theorem admin_status_fixed_at_mount (api0 : Api) (apis : list Api) :
  Dashboard.isAdmin (DashboardView.screen_after api0 apis)
  = match Dashboard.checkAdminStatus api0 with
    | Dashboard.Resolved adminStatus => adminStatus
    | Dashboard.Rejected _ => false
    end.
Proof.
  unfold DashboardView.screen_after.
  destruct (refreshes_keep_flag apis (Dashboard.mount api0))
    as (Hflag & _); [rewrite mount_cells; reflexivity..|].
  rewrite Hflag, mount_cells. reflexivity.
Qed.

(** X11. For a user whose admin check at mount answered "no" or failed,
    the screen never holds statistics and never shows an administrator's
    part, however often the data is loaded again and whatever the
    backend would deliver: both statistics cells are null, and the page
    has no review statistics, no administrator card and no statistics
    container. *)
Theorem non_admin_sees_no_admin_part (api0 : Api) (apis : list Api) :
  Dashboard.checkAdminStatus api0 <> Dashboard.Resolved true ->
  Dashboard.stats (DashboardView.screen_after api0 apis) = None
  /\ Dashboard.reviewStats (DashboardView.screen_after api0 apis) = None
  /\ render (DashboardView.screen_after api0 apis)
     = DashboardView.Page None false None.
Proof.
  intros Hnot.
  assert (Dashboard.isAdmin (Dashboard.mount api0) = false) as Hflag0.
  { rewrite mount_cells. simpl.
    destruct (Dashboard.checkAdminStatus api0) as [[|]|err];
      [contradiction Hnot; reflexivity | reflexivity | reflexivity]. }
  unfold DashboardView.screen_after.
  destruct apis as [|api apis _] using rev_ind.
  - simpl. rewrite mount_cells in *. simpl in *.
    unfold DashboardView.render. simpl. rewrite Hflag0.
    repeat split.
  - rewrite last_refresh_cells by (rewrite mount_cells; reflexivity).
    rewrite Hflag0. unfold DashboardView.render. simpl. repeat split.
Qed.

(** X13. The [CardSkeleton] branch of the statistics container is dead:
    in no state of the five cells does the component return a page whose
    statistics container shows it, because a loading screen returns
    [DashboardSkeleton] before the page is built. *)
Theorem card_skeleton_is_never_shown (s : Screen) reviews card :
  render s
  <> DashboardView.Page reviews card (Some DashboardView.CardSkeleton).
Proof.
  unfold DashboardView.render, DashboardView.stats_panel.
  destruct (Dashboard.loading s); [discriminate|].
  destruct (Dashboard.isAdmin s); [|discriminate].
  destruct (Dashboard.error s) as [msg|]; [|discriminate].
  destruct (String.eqb msg ""); discriminate.
Qed.

(** X14. What an administrator sees once the screen has mounted: the
    administrator card and the statistics grid with all four values [0],
    and no review statistics, whatever the backend holds. *)
Theorem admin_first_view_is_all_zeros (api0 : Api) :
  Dashboard.checkAdminStatus api0 = Dashboard.Resolved true ->
  render (Dashboard.mount api0)
  = DashboardView.Page None true
      (Some (DashboardView.StatsGrid zero zero zero zero)).
Proof.
  intros Hadmin. rewrite mount_cells, Hadmin. reflexivity.
Qed.


End ViewProperties.

Section LoadProperties.

Variable number : Type.
Variable zero : number.
Variable truthy : number -> bool.
Variable ReviewStats : Type.

Abbreviation AdminStats := (DashboardView.AdminStats number).
Abbreviation Screen := (Dashboard.Screen AdminStats ReviewStats).
Abbreviation Api := (DashboardLoad.Api AdminStats ReviewStats).
Abbreviation render := (DashboardView.render number zero truthy ReviewStats).

(** With a backend whose calls all return their promise, the load is the
    one of [Dashboard.loadData]. *)
Lemma loadData_returning (flag : bool)
    (api : Dashboard.Api AdminStats ReviewStats) (s : Screen) :
  DashboardLoad.loadData flag (DashboardLoad.returning api) s
  = Dashboard.loadData AdminStats ReviewStats flag api s.
Proof. destruct flag; reflexivity. Qed.

(** X12. [loadData] leaves an error message exactly when one of its
    backend calls throws on being invoked. A call that returns its promise
    never leads to one, however the promise settles, because each promise
    carries its own [.catch]: the two cells then get the answers, null for
    a rejected request. When a call throws, the message is the thrown
    error's, the statistics cells keep what they held, and an
    administrator sees the error text with its retry button in place of
    the grid. Loading is over in every case and [isAdmin] is never
    touched. *)
Theorem load_error_only_when_a_call_throws (flag : bool) (api : Api)
    (s : Screen) :
  (Dashboard.loading (DashboardLoad.loadData flag api s) = false
   /\ Dashboard.isAdmin (DashboardLoad.loadData flag api s)
      = Dashboard.isAdmin s)
  /\ (flag = false ->
      Dashboard.error (DashboardLoad.loadData flag api s) = None
      /\ Dashboard.stats (DashboardLoad.loadData flag api s) = None
      /\ Dashboard.reviewStats (DashboardLoad.loadData flag api s) = None)
  /\ (forall adminPromise reviewPromise,
        flag = true ->
        DashboardLoad.getAdminStats api
          = DashboardLoad.Returns adminPromise ->
        DashboardLoad.getReviewStats api
          = DashboardLoad.Returns reviewPromise ->
        Dashboard.error (DashboardLoad.loadData flag api s) = None
        /\ Dashboard.stats (DashboardLoad.loadData flag api s)
           = Dashboard.catch_null adminPromise
        /\ Dashboard.reviewStats (DashboardLoad.loadData flag api s)
           = Dashboard.catch_null reviewPromise)
  /\ (forall err,
        flag = true ->
        DashboardLoad.getAdminStats api = DashboardLoad.Throws err
        \/ (exists adminPromise,
               DashboardLoad.getAdminStats api
                 = DashboardLoad.Returns adminPromise
               /\ DashboardLoad.getReviewStats api
                  = DashboardLoad.Throws err) ->
        Dashboard.error (DashboardLoad.loadData flag api s)
          = Some (DashboardLoad.error_text err)
        /\ Dashboard.stats (DashboardLoad.loadData flag api s)
           = Dashboard.stats s
        /\ Dashboard.reviewStats (DashboardLoad.loadData flag api s)
           = Dashboard.reviewStats s
        /\ (Dashboard.isAdmin s = true ->
            DashboardLoad.error_text err <> "" ->
            render (DashboardLoad.loadData flag api s)
            = DashboardView.Page (Dashboard.reviewStats s) true
                (Some (DashboardView.ErrorContainer
                         (DashboardLoad.error_text err))))).
Proof.
  split; [|split; [|split]].
  - unfold DashboardLoad.loadData, Dashboard.try_catch_finally.
    destruct flag; [|split; reflexivity].
    destruct (DashboardLoad.getAdminStats api) as [pa|err];
      [|split; reflexivity].
    destruct (DashboardLoad.getReviewStats api) as [pr|err];
      split; reflexivity.
  - intros ->. repeat split.
  - intros pa pr -> Ha Hr.
    unfold DashboardLoad.loadData, Dashboard.try_catch_finally.
    rewrite Ha, Hr. repeat split.
  - intros err -> Hthrow.
    assert (DashboardLoad.loadData true api s
            = {| Dashboard.stats := Dashboard.stats s;
                 Dashboard.reviewStats := Dashboard.reviewStats s;
                 Dashboard.loading := false;
                 Dashboard.error := Some (DashboardLoad.error_text err);
                 Dashboard.isAdmin := Dashboard.isAdmin s |}) as ->.
    { unfold DashboardLoad.loadData, Dashboard.try_catch_finally.
      destruct Hthrow as [Ha|(pa & Ha & Hr)].
      - rewrite Ha. reflexivity.
      - rewrite Ha, Hr. reflexivity. }
    simpl. repeat split.
    intros Hadmin Htext.
    unfold DashboardView.render, DashboardView.stats_panel. simpl.
    rewrite Hadmin.
    destruct (String.eqb_spec (DashboardLoad.error_text err) "")
      as [Hempty|_]; [contradiction|reflexivity].
Qed.

End LoadProperties.

(** X16. [renderMoodIcon] answers every integer mood: the moods 1 to 5
    get five different icons, and exactly the moods outside 1 to 5 get the
    fallback icon ["help-circle-outline"]. *)
Theorem renderMoodIcon_total (mood : Z) :
  (DashboardView.renderMoodIcon mood = "help-circle-outline"
   <-> ~ (1 <= mood <= 5))
  /\ (forall other,
        1 <= mood <= 5 -> 1 <= other <= 5 ->
        DashboardView.renderMoodIcon mood
        = DashboardView.renderMoodIcon other ->
        mood = other).
Proof.
  assert (forall m, ~ (1 <= m <= 5) ->
                    DashboardView.renderMoodIcon m = "help-circle-outline")
    as Hout.
  { intros m Hm. unfold DashboardView.renderMoodIcon, DashboardView.icons.
    rewrite !lookup_insert_ne by lia. rewrite lookup_empty. reflexivity. }
  assert (forall m, 1 <= m <= 5 ->
                    m = 1 \/ m = 2 \/ m = 3 \/ m = 4 \/ m = 5) as Hin
    by (intros; lia).
  split.
  - split.
    + intros Hicon Hm.
      destruct (Hin mood Hm) as [->|[->|[->|[->| ->]]]];
        vm_compute in Hicon; discriminate.
    + apply Hout.
  - intros other Hm Ho Heq.
    destruct (Hin mood Hm) as [->|[->|[->|[->| ->]]]];
      destruct (Hin other Ho) as [->|[->|[->|[->| ->]]]];
      try reflexivity; vm_compute in Heq; discriminate.
Qed.

(** X17. The bar colours tell the five moods apart: the keys ["1"] to
    ["5"] get five different colours, and every key other than ["2"] to
    ["5"] gets the colour of ["1"]. *)
Theorem moodBarColor_distinct (mood : string) :
  (forall other,
      In mood ["1"; "2"; "3"; "4"; "5"] ->
      In other ["1"; "2"; "3"; "4"; "5"] ->
      DashboardView.moodBarColor mood = DashboardView.moodBarColor other ->
      mood = other)
  /\ (~ In mood ["2"; "3"; "4"; "5"] ->
      DashboardView.moodBarColor mood = DashboardView.moodBarColor "1").
Proof.
  split.
  - intros other Hm Ho Heq. simpl in Hm, Ho.
    destruct Hm as [<-|[<-|[<-|[<-|[<-|[]]]]]];
      destruct Ho as [<-|[<-|[<-|[<-|[<-|[]]]]]];
      try reflexivity; vm_compute in Heq; discriminate.
  - intros Hm. simpl in Hm. unfold DashboardView.moodBarColor.
    destruct (String.eqb_spec mood "5") as [->|_]; [tauto|].
    destruct (String.eqb_spec mood "4") as [->|_]; [tauto|].
    destruct (String.eqb_spec mood "3") as [->|_]; [tauto|].
    destruct (String.eqb_spec mood "2") as [->|_]; [tauto|].
    reflexivity.
Qed.

(* ===================================================================== *)
(** ** The further properties at the sample data *)
(* ===================================================================== *)

Lemma accept_visit_block_rollback_witness :
  accept_visit Sample.refusing Sample.admin "QR-1" "gym" Sample.state
  = Raised Sample.refusal
      {| database := Sample.db;
         server_log := ["Error in accept_visit: Invalid transaction"] |}
  /\ when_others Sample.refusal = true
  /\ database
       {| database := Sample.db;
          server_log := ["Error in accept_visit: Invalid transaction"] |}
     = database Sample.state.
Proof.
  assert (accept_visit Sample.refusing Sample.admin "QR-1" "gym"
                       Sample.state
          = Raised Sample.refusal
              {| database := Sample.db;
                 server_log :=
                   ["Error in accept_visit: Invalid transaction"] |})
    as Hrun by (vm_compute; reflexivity).
  split; [exact Hrun|]. split; [reflexivity|].
  exact (accept_visit_block_rollback _ _ _ _ _ _ _ Hrun eq_refl).
Defined.

Lemma unauthorized_calls_change_nothing_witness :
  database
    (perform_all Sample.refusing
       [Scenario.intruder; Scenario.intruder] Sample.state)
  = database Sample.state
  /\ server_log
       (perform_all Sample.refusing
          [Scenario.intruder; Scenario.intruder] Sample.state)
     = server_log Sample.state
       ++ repeat "Error in accept_visit: Unauthorized: Admin access required"
                 (length [Scenario.intruder; Scenario.intruder]).
Proof.
  apply (unauthorized_calls_change_nothing Sample.refusing
           [Scenario.intruder; Scenario.intruder] Sample.state).
  repeat constructor.
Defined.

Lemma checks_passed_ledger_decides_witness :
  exists v_activity qr,
    find (activity_matches "gym") (activities (database Sample.state))
      = Some v_activity
    /\ find (qr_code_matches "QR-1" (now Sample.admin))
            (qr_codes (database Sample.state)) = Some qr
    /\ call_accept_visit Sample.refusing Sample.admin "QR-1" "gym"
                         Sample.state
       = match Sample.refusing
                 (points_transactions (database Sample.state))
                 (entry_for Sample.admin "QR-1" v_activity qr) with
         | None =>
             Ok tt
               (set_database
                  (insert_into_points_transactions
                     (entry_for Sample.admin "QR-1" v_activity qr)
                     (insert_into_visits (visit_for Sample.admin qr)
                                         (database Sample.state)))
                  Sample.state)
         | Some e =>
             Raised e
               {| database := database Sample.state;
                  server_log :=
                    server_log Sample.state ++
                    (if when_others e
                     then ["Error in accept_visit: " +:+ message e]
                     else []) |}
         end.
Proof.
  apply (checks_passed_ledger_decides Sample.refusing Sample.admin
           "QR-1" "gym" Sample.state).
  reflexivity.
Defined.

Lemma violated_check_is_logged_witness :
  call_accept_visit Sample.accepting Sample.admin "QR-2" "gym" Sample.state
  = Raised InvalidOrExpiredCode
      {| database := database Sample.state;
         server_log :=
           server_log Sample.state
           ++ ["Error in accept_visit: "
               +:+ message InvalidOrExpiredCode] |}.
Proof.
  apply (violated_check_is_logged Sample.accepting Sample.admin
           "QR-2" "gym" Sample.state InvalidOrExpiredCode).
  reflexivity.
Defined.

Lemma accept_visit_error_origin_witness :
  first_violated_check Sample.admin "QR-1" "gym" (database Sample.state)
  = Some Sample.refusal
  \/ (first_violated_check Sample.admin "QR-1" "gym"
        (database Sample.state) = None
      /\ exists v_activity qr,
          find (activity_matches "gym") (activities (database Sample.state))
            = Some v_activity
          /\ find (qr_code_matches "QR-1" (now Sample.admin))
                  (qr_codes (database Sample.state)) = Some qr
          /\ Sample.refusing
               (points_transactions (database Sample.state))
               (entry_for Sample.admin "QR-1" v_activity qr)
             = Some Sample.refusal).
Proof.
  apply (accept_visit_error_origin Sample.refusing Sample.admin
           "QR-1" "gym" Sample.state Sample.refusal
           {| database := Sample.db;
              server_log :=
                ["Error in accept_visit: Invalid transaction"] |}).
  vm_compute. reflexivity.
Defined.

Lemma untrapped_error_rolls_back_unlogged_witness :
  accept_visit_body Sample.timing_out Sample.admin "QR-1" "gym"
                    Sample.state
  = Raised Sample.timeout
      (set_database
         (insert_into_visits (visit_for Sample.admin Sample.fresh_code)
                             (database Sample.state))
         Sample.state)
  /\ accept_visit Sample.timing_out Sample.admin "QR-1" "gym" Sample.state
     = Raised Sample.timeout Sample.state
  /\ call_accept_visit Sample.timing_out Sample.admin "QR-1" "gym"
                       Sample.state
     = Raised Sample.timeout Sample.state.
Proof.
  apply (untrapped_error_rolls_back_unlogged Sample.timing_out Sample.admin
           "QR-1" "gym" Sample.state Sample.gym Sample.fresh_code
           Sample.timeout);
    reflexivity.
Defined.

Lemma reordered_requests_award_the_same_witness :
  returned Sample.accepting
    (schedule [Cases.gym_visit; Cases.stale_visit; Cases.outsider]
              Cases.moments)
    Sample.state
  = returned Sample.accepting
      (schedule [Cases.outsider; Cases.gym_visit; Cases.stale_visit]
                Cases.moments)
      Sample.state
  /\ Permutation
       (map Visit.user_id
          (visits
             (database
                (perform_all Sample.accepting
                   (schedule
                      [Cases.gym_visit; Cases.stale_visit; Cases.outsider]
                      Cases.moments)
                   Sample.state))))
       (map Visit.user_id
          (visits
             (database
                (perform_all Sample.accepting
                   (schedule
                      [Cases.outsider; Cases.gym_visit; Cases.stale_visit]
                      Cases.moments)
                   Sample.state))))
  /\ Permutation
       (map award
          (points_transactions
             (database
                (perform_all Sample.accepting
                   (schedule
                      [Cases.gym_visit; Cases.stale_visit; Cases.outsider]
                      Cases.moments)
                   Sample.state))))
       (map award
          (points_transactions
             (database
                (perform_all Sample.accepting
                   (schedule
                      [Cases.outsider; Cases.gym_visit; Cases.stale_visit]
                      Cases.moments)
                   Sample.state)))).
Proof.
  apply (reordered_requests_award_the_same Sample.accepting)
    with (t := 100).
  - intros l l' e e' Haward. reflexivity.
  - apply Permutation_sym.
    apply (Permutation_cons_append
             [Cases.gym_visit; Cases.stale_visit] Cases.outsider).
  - reflexivity.
  - repeat apply List.Forall_cons; try apply List.Forall_nil;
      intros q [<-|[<-|[]]]; reflexivity.
Defined.

Lemma non_admin_sees_no_admin_part_witness :
  Dashboard.stats
    (DashboardView.screen_after Scenario.offline_api
       [Scenario.admin_api]) = None
  /\ Dashboard.reviewStats
       (DashboardView.screen_after Scenario.offline_api
          [Scenario.admin_api]) = None
  /\ DashboardView.render nat 0%nat Scenario.truthy nat
       (DashboardView.screen_after Scenario.offline_api
          [Scenario.admin_api])
     = DashboardView.Page None false None.
Proof.
  apply (non_admin_sees_no_admin_part nat 0%nat Scenario.truthy nat
           Scenario.offline_api [Scenario.admin_api]).
  discriminate.
Defined.

Lemma admin_first_view_is_all_zeros_witness :
  DashboardView.render nat 0%nat Scenario.truthy nat
    (Dashboard.mount Scenario.admin_api)
  = DashboardView.Page None true
      (Some (DashboardView.StatsGrid 0%nat 0%nat 0%nat 0%nat)).
Proof.
  apply (admin_first_view_is_all_zeros nat 0%nat Scenario.truthy nat
           Scenario.admin_api).
  reflexivity.
Defined.


Lemma load_error_only_when_a_call_throws_witness :
  Dashboard.error (DashboardLoad.loadData true Cases.throwing_api Cases.shown)
  = Some "supabase is undefined"
  /\ Dashboard.stats
       (DashboardLoad.loadData true Cases.throwing_api Cases.shown)
     = Some Scenario.today
  /\ Dashboard.reviewStats
       (DashboardLoad.loadData true Cases.throwing_api Cases.shown)
     = Some 4%nat
  /\ DashboardView.render nat 0%nat Scenario.truthy nat
       (DashboardLoad.loadData true Cases.throwing_api Cases.shown)
     = DashboardView.Page (Some 4%nat) true
         (Some (DashboardView.ErrorContainer "supabase is undefined")).
Proof.
  destruct (load_error_only_when_a_call_throws nat 0%nat Scenario.truthy
              nat true Cases.throwing_api Cases.shown)
    as (_ & _ & _ & Hthrows).
  destruct (Hthrows (Dashboard.ErrorObject "supabase is undefined")
              eq_refl (or_introl eq_refl))
    as (Herror & Hstats & Hreviews & Hview).
  split; [exact Herror|]. split; [exact Hstats|].
  split; [exact Hreviews|].
  apply Hview; [reflexivity | discriminate].
Defined.

Lemma renderMoodIcon_total_witness :
  DashboardView.renderMoodIcon 5 = "heart"
  /\ DashboardView.renderMoodIcon 0 = "help-circle-outline"
  /\ (DashboardView.renderMoodIcon 2 = DashboardView.renderMoodIcon 2 ->
      2 = 2).
Proof.
  split; [reflexivity|]. split.
  - apply (proj1 (renderMoodIcon_total 0)). lia.
  - apply (proj2 (renderMoodIcon_total 2) 2); lia.
Defined.

Lemma moodBarColor_distinct_witness :
  DashboardView.moodBarColor "happy" = DashboardView.moodBarColor "1"
  /\ (DashboardView.moodBarColor "4" = DashboardView.moodBarColor "4" ->
      "4" = "4").
Proof.
  split.
  - apply (proj2 (moodBarColor_distinct "happy")).
    simpl. intros [H|[H|[H|[H|[]]]]]; discriminate.
  - apply (proj1 (moodBarColor_distinct "4") "4"); simpl; tauto.
Defined.
